(** * Docstring coverage analyzer: a shallow embedding

    Embedding of [code-documentation/docstring_coverage.py]: the per-file
    analysis [analyze_file], the directory scan [scan_directory] and the
    script entry point, together with the parts of the Python standard
    library they call ([ast.walk], [ast.get_docstring], [inspect.cleandoc],
    [os.walk], [os.path.join], [str.split], ...), modelled after CPython
    3.11 on a POSIX system ([os.sep] is the slash).

    Python [str] values are modelled by [string]; a character is a code
    point below 256.  Python [int] values are modelled by [Z]. *)

From Stdlib Require Import List String Ascii ZArith Lia Bool.
From Stdlib Require Import DecimalString Permutation.
Import ListNotations.

Local Open Scope Z_scope.
Local Open Scope list_scope.

Infix "+++" := String.append (right associativity, at level 60).

(** ** Python strings *)

Module PyStr.

Definition nl : ascii := "010"%char.
Definition cr : ascii := "013"%char.
Definition tab : ascii := "009"%char.
Definition space : ascii := " "%char.

(** [len(s)] *)
Definition len (s : string) : Z := Z.of_nat (String.length s).

(** [str(n)] for an integer. *)
Definition str (n : Z) : string := NilZero.string_of_int (Z.to_int n).

(** [c.isspace()], for the code points below 256. *)
Definition isspace (c : ascii) : bool :=
  let n := nat_of_ascii c in
  ((9 <=? n)%nat && (n <=? 13)%nat) || ((28 <=? n)%nat && (n <=? 32)%nat)
  || (n =? 133)%nat || (n =? 160)%nat.

(** [s.lstrip()] *)
Fixpoint lstrip (s : string) : string :=
  match s with
  | EmptyString => EmptyString
  | String c r => if isspace c then lstrip r else s
  end.

(** Some character of [s] is not white space. *)
Fixpoint has_nonspace (s : string) : bool :=
  match s with
  | EmptyString => false
  | String c r => negb (isspace c) || has_nonspace r
  end.

(** [bool(s)]: the string is not empty. *)
Definition nonempty (s : string) : bool :=
  match s with
  | EmptyString => false
  | String _ _ => true
  end.

(** [s.split(sep)] for a one-character separator. *)
Fixpoint split (sep : ascii) (s : string) : list string :=
  match s with
  | EmptyString => [EmptyString]
  | String c r =>
      if Ascii.eqb c sep then EmptyString :: split sep r
      else match split sep r with
           | [] => [String c EmptyString]
           | p :: ps => String c p :: ps
           end
  end.

(** [sep.join(l)] *)
Fixpoint join (sep : string) (l : list string) : string :=
  match l with
  | [] => EmptyString
  | [x] => x
  | x :: r => x +++ sep +++ join sep r
  end.

(** [s.startswith(p)] *)
Definition startswith (p s : string) : bool := String.prefix p s.

(** [s.endswith(suffix)] *)
Fixpoint endswith (suffix s : string) : bool :=
  String.eqb s suffix
  || match s with
     | EmptyString => false
     | String _ r => endswith suffix r
     end.

(** [sub in s] *)
Fixpoint contains (sub s : string) : bool :=
  String.prefix sub s
  || match s with
     | EmptyString => false
     | String _ r => contains sub r
     end.

(** [s[n:]] for [0 <= n] *)
Fixpoint skip (n : nat) (s : string) : string :=
  match n, s with
  | O, _ => s
  | S n', String _ r => skip n' r
  | S _, EmptyString => EmptyString
  end.

Definition slice_from (n : Z) (s : string) : string := skip (Z.to_nat n) s.

Fixpoint spaces (n : nat) : string :=
  match n with
  | O => EmptyString
  | S n' => String space (spaces n')
  end.

(** [s.expandtabs()] with the default tab size 8; [col] is the current
    column, reset after a line feed or a carriage return. *)
Fixpoint expandtabs_from (col : nat) (s : string) : string :=
  match s with
  | EmptyString => EmptyString
  | String c r =>
      if Ascii.eqb c tab then
        let incr := (8 - col mod 8)%nat in
        spaces incr +++ expandtabs_from (col + incr) r
      else if Ascii.eqb c nl || Ascii.eqb c cr then
        String c (expandtabs_from 0 r)
      else String c (expandtabs_from (S col) r)
  end.

Definition expandtabs (s : string) : string := expandtabs_from 0 s.

End PyStr.

(** ** [inspect.cleandoc] *)

Module Inspect.
Import PyStr.

Definition sys_maxsize : Z := 9223372036854775807.

(** Minimum indentation of the non-blank lines after the first one. *)
Definition margin_step (margin : Z) (line : string) : Z :=
  let content := len (lstrip line) in
  if content =? 0 then margin else Z.min margin (len line - content).

Definition find_margin (lines : list string) : Z :=
  fold_left margin_step (tl lines) sys_maxsize.

(** [while lines and not lines[0]: lines.pop(0)] *)
Fixpoint pop_leading_blank (lines : list string) : list string :=
  match lines with
  | EmptyString :: r => pop_leading_blank r
  | _ => lines
  end.

(** [while lines and not lines[-1]: lines.pop()] *)
Definition pop_trailing_blank (lines : list string) : list string :=
  rev (pop_leading_blank (rev lines)).

Definition cleandoc (doc : string) : string :=
  let lines := split nl (expandtabs doc) in
  let margin := find_margin lines in
  let lines :=
    match lines with
    | [] => []
    | first :: rest => lstrip first :: rest
    end in
  let lines :=
    if margin <? sys_maxsize then
      match lines with
      | [] => []
      | first :: rest => first :: map (slice_from margin) rest
      end
    else lines in
  let lines := pop_trailing_blank lines in
  let lines := pop_leading_blank lines in
  join (String nl EmptyString) lines.

End Inspect.

(** ** The syntax tree

    The nodes of Python's [ast] that the analysis tells apart.  [lineno] and
    [name] are the attributes the analysis reads.  Every other statement or
    expression is an [Other] node carrying its child nodes in the order of
    [ast.iter_child_nodes].  The argument list, decorators, annotations and
    base classes of a definition are expressions: the walk visits them, no
    branch of the analysis matches them and they contain no statement, so
    the definition nodes keep their [body] only. *)

Inductive constant : Type :=
| CStr (s : string)
| CBytes (b : string)
| CInt (z : Z)
| CNone.

#[local] Unset Elimination Schemes.

Inductive node : Type :=
| Module (body : list node)
| FunctionDef (name : string) (lineno : Z) (body : list node)
| AsyncFunctionDef (name : string) (lineno : Z) (body : list node)
| ClassDef (name : string) (lineno : Z) (body : list node)
| Expr (value : node)
| Constant (value : constant)
| Other (children : list node).

#[local] Set Elimination Schemes.

(** Induction over a tree, with the property known of every child held in
    a list. *)
Section NodeInduction.
Variable P : node -> Prop.
Hypothesis P_Module : forall body, Forall P body -> P (Module body).
Hypothesis P_FunctionDef :
  forall name lineno body, Forall P body -> P (FunctionDef name lineno body).
Hypothesis P_AsyncFunctionDef :
  forall name lineno body,
    Forall P body -> P (AsyncFunctionDef name lineno body).
Hypothesis P_ClassDef :
  forall name lineno body, Forall P body -> P (ClassDef name lineno body).
Hypothesis P_Expr : forall value, P value -> P (Expr value).
Hypothesis P_Constant : forall value, P (Constant value).
Hypothesis P_Other : forall children, Forall P children -> P (Other children).

Fixpoint node_ind (n : node) : P n :=
  let all :=
    fix all (l : list node) : Forall P l :=
      match l with
      | [] => Forall_nil P
      | x :: r => Forall_cons x (node_ind x) (all r)
      end in
  match n with
  | Module body => P_Module body (all body)
  | FunctionDef name lineno body => P_FunctionDef name lineno body (all body)
  | AsyncFunctionDef name lineno body =>
      P_AsyncFunctionDef name lineno body (all body)
  | ClassDef name lineno body => P_ClassDef name lineno body (all body)
  | Expr value => P_Expr value (node_ind value)
  | Constant value => P_Constant value
  | Other children => P_Other children (all children)
  end.
End NodeInduction.

Module Ast.

(** [ast.iter_child_nodes] *)
Definition iter_child_nodes (n : node) : list node :=
  match n with
  | Module body => body
  | FunctionDef _ _ body => body
  | AsyncFunctionDef _ _ body => body
  | ClassDef _ _ body => body
  | Expr value => [value]
  | Constant _ => []
  | Other children => children
  end.

Fixpoint node_count (n : node) : nat :=
  match n with
  | Module body => S (list_sum (map node_count body))
  | FunctionDef _ _ body => S (list_sum (map node_count body))
  | AsyncFunctionDef _ _ body => S (list_sum (map node_count body))
  | ClassDef _ _ body => S (list_sum (map node_count body))
  | Expr value => S (node_count value)
  | Constant _ => 1%nat
  | Other children => S (list_sum (map node_count children))
  end.

(** The number of nodes of the trees in a queue. *)
Definition count_list (l : list node) : nat := list_sum (map node_count l).

(** [ast.walk]: the [todo] queue is popped on the left and extended on the
    right with the children of the popped node.  The recursion is bounded
    by the number of nodes still to be yielded. *)
Fixpoint walk_queue (fuel : nat) (todo : list node) : list node :=
  match fuel with
  | O => []
  | S fuel' =>
      match todo with
      | [] => []
      | n :: rest => n :: walk_queue fuel' (rest ++ iter_child_nodes n)
      end
  end.

Definition walk (tree : node) : list node :=
  walk_queue (node_count tree) [tree].

(** [ast.get_docstring(node)] with [clean=True].  On a node that is not a
    module or a definition Python raises [TypeError]; the analysis calls
    it on definitions only, and the model answers [None] there. *)
Definition get_docstring (n : node) : option string :=
  match n with
  | Module body | FunctionDef _ _ body | AsyncFunctionDef _ _ body
  | ClassDef _ _ body =>
      match body with
      | Expr (Constant (CStr text)) :: _ => Some (Inspect.cleandoc text)
      | _ => None
      end
  | _ => None
  end.

End Ast.

(** Truth value of an optional string: [None] and the empty string are
    false. *)
Definition truthy (o : option string) : bool :=
  match o with
  | None => false
  | Some s => PyStr.nonempty s
  end.

(** ** [analyze_file] *)

(** A reported item: [(type_name, line_number, name)]. *)
Definition item : Type := string * Z * string.

(** The body of the [for node in ast.walk(tree)] loop, as the items it
    appends to [missing_items]. *)
Definition check_method (class_name : string) (it : node) : list item :=
  match it with
  | FunctionDef name lineno _ | AsyncFunctionDef name lineno _ =>
      if negb (truthy (Ast.get_docstring it))
      then [("Method"%string, lineno, class_name +++ "." +++ name)]
      else []
  | _ => []
  end.

Definition check_node (n : node) : list item :=
  match n with
  | FunctionDef name lineno _ | AsyncFunctionDef name lineno _ =>
      if negb (truthy (Ast.get_docstring n))
      then [("Function"%string, lineno, name)]
      else []
  | ClassDef name lineno body =>
      (if negb (truthy (Ast.get_docstring n))
       then [("Class"%string, lineno, name)]
       else [])
      ++ flat_map (check_method name) body
  | _ => []
  end.

Definition missing_items (tree : node) : list item :=
  fold_left (fun acc n => acc ++ check_node n) (Ast.walk tree) [].

(** Exception classes.  [IOError] stands for [OSError] and its subclasses,
    [SyntaxError] for itself and its subclasses ([IndentationError],
    [TabError]).  [ValueError] (CPython 3.11 raises it in [ast.parse] on a
    text holding a null byte), [RecursionError] and [MemoryError] (both
    raised by [ast.parse] on deeply nested text) are classes that no
    handler of the program names. *)
Inductive exn : Type :=
| IOError
| UnicodeDecodeError
| SyntaxError
| ValueError
| RecursionError
| MemoryError.

(** A call returns a value or raises an exception. *)
Inductive result (A : Type) : Type :=
| Returns (a : A)
| Raises (e : exn).

Arguments Returns {A} a.
Arguments Raises {A} e.

(** What is found at a path: [open]/[read] raise, or give a text; the text
    carries what [ast.parse] does on it (Python's parser is not part of
    the program). *)
Inductive source : Type := Source (parsed : result node).

Inductive file_content : Type :=
| Unreadable (e : exn)
| Readable (src : source).

Definition open_read (c : file_content) : result source :=
  match c with
  | Unreadable e => Raises e
  | Readable src => Returns src
  end.

Definition ast_parse (src : source) : result node :=
  let 'Source parsed := src in parsed.

(** The two [try] blocks catch [(IOError, UnicodeDecodeError)] and
    [SyntaxError]; every other exception leaves the function. *)
Definition analyze_file (filepath : string) (c : file_content)
  : result (list item) :=
  match open_read c with
  | Raises IOError => Returns []
  | Raises UnicodeDecodeError => Returns []
  | Raises e => Raises e
  | Returns src =>
      match ast_parse src with
      | Raises SyntaxError => Returns []
      | Raises e => Raises e
      | Returns tree => Returns (missing_items tree)
      end
  end.

(** ** The file system seen by [os.walk]

    A directory holds its non-directory entries (name and content) and its
    sub-directories, each in the order [os.scandir] lists them.  A symbolic
    link to a directory is listed by [os.walk] but not entered; the scan
    ignores the directory names, so such a link is left out. *)

#[local] Unset Elimination Schemes.

Inductive dirtree : Type :=
| Dir (files : list (string * file_content)) (subdirs : list (string * dirtree)).

#[local] Set Elimination Schemes.

Section DirtreeInduction.
Variable P : dirtree -> Prop.
Hypothesis P_Dir :
  forall files subdirs,
    Forall (fun entry => P (snd entry)) subdirs -> P (Dir files subdirs).

End DirtreeInduction.

Module OsPath.
Import PyStr.

Definition sep : ascii := "/"%char.

(** [os.path.join(a, b)] (posixpath). *)
Definition join (a b : string) : string :=
  if startswith (String sep EmptyString) b then b
  else if String.eqb a EmptyString || endswith (String sep EmptyString) a
       then a +++ b
       else a +++ String sep EmptyString +++ b.

End OsPath.

(** One triple yielded by [os.walk]: the directory path, the names of its
    sub-directories, and its other entries. *)
Definition walk_entry : Type :=
  string * list string * list (string * file_content).

(** [os.walk(top)], top-down, on the directory tree found at [top]. *)
Fixpoint os_walk (top : string) (d : dirtree) : list walk_entry :=
  match d with
  | Dir files subdirs =>
      (top, map fst subdirs, files)
      :: (fix walk_dirs (l : list (string * dirtree)) : list walk_entry :=
            match l with
            | [] => []
            | (dirname, sub) :: r =>
                os_walk (OsPath.join top dirname) sub ++ walk_dirs r
            end) subdirs
  end.

(** The environment of a run: what [os.path.abspath] answers, and the
    directory tree a path names ([None] when the path does not exist or is
    not a directory). *)
Record os_env : Type := {
  abspath : string -> string;
  resolve : string -> option dirtree
}.

Definition isdir (env : os_env) (path : string) : bool :=
  match resolve env path with
  | Some _ => true
  | None => false
  end.

(** [os.walk] yields nothing when [top] cannot be listed. *)
Definition os_walk_top (env : os_env) (top : string) : list walk_entry :=
  match resolve env top with
  | Some d => os_walk top d
  | None => []
  end.

(** ** [scan_directory] *)

(** The state threaded through the scan: the two counters, the strings
    passed to [print] (one per call), and the paths passed to [open]. *)
Record scan_state : Type := {
  total_missing : Z;
  files_scanned : Z;
  stdout : list string;
  opened : list string
}.

Definition initial_state : scan_state :=
  {| total_missing := 0; files_scanned := 0; stdout := []; opened := [] |}.

Definition print (s : string) (st : scan_state) : scan_state :=
  {| total_missing := total_missing st;
     files_scanned := files_scanned st;
     stdout := stdout st ++ [s];
     opened := opened st |}.

Definition note_open (filepath : string) (st : scan_state) : scan_state :=
  {| total_missing := total_missing st;
     files_scanned := files_scanned st;
     stdout := stdout st;
     opened := opened st ++ [filepath] |}.

Definition incr_total_missing (st : scan_state) : scan_state :=
  {| total_missing := total_missing st + 1;
     files_scanned := files_scanned st;
     stdout := stdout st;
     opened := opened st |}.

Definition incr_files_scanned (st : scan_state) : scan_state :=
  {| total_missing := total_missing st;
     files_scanned := files_scanned st + 1;
     stdout := stdout st;
     opened := opened st |}.

Definition item_line (it : item) : string :=
  let '(item_type, line, name) := it in
  "  - Line " +++ PyStr.str line +++ ": " +++ item_type +++ " '" +++ name
  +++ "' is missing a docstring.".

(** [for item_type, line, name in missing: ...] *)
Definition report_item (st : scan_state) (it : item) : scan_state :=
  incr_total_missing (print (item_line it) st).

(** A loop body either goes on with a new state or lets an exception
    escape, leaving the state as it was when the exception was raised. *)
Inductive progress : Type :=
| Running (st : scan_state)
| Crashed (e : exn) (st : scan_state).

(** [for x in l: body], left as soon as the body raises. *)
Fixpoint for_each {A : Type} (body : scan_state -> A -> progress)
    (l : list A) (st : scan_state) : progress :=
  match l with
  | [] => Running st
  | x :: r =>
      match body st x with
      | Running st' => for_each body r st'
      | Crashed e st' => Crashed e st'
      end
  end.

(** The body of [for file in files]; the call of [analyze_file] stands in
    no [try] block. *)
Definition scan_file (root : string) (st : scan_state)
    (f : string * file_content) : progress :=
  let '(file, content) := f in
  if PyStr.endswith ".py" file then
    let filepath := OsPath.join root file in
    let st := note_open filepath st in
    match analyze_file filepath content with
    | Raises e => Crashed e st
    | Returns [] => Running st
    | Returns ((_ :: _) as missing) =>
        let st := incr_files_scanned st in
        let st := print (filepath +++ ":") st in
        let st := fold_left report_item missing st in
        Running (print "" st)
    end
  else Running st.

(** [any(part.startswith('.') for part in root.split(os.sep))] *)
Definition hidden (root : string) : bool :=
  existsb (PyStr.startswith ".") (PyStr.split OsPath.sep root).

(** The body of [for root, _, files in os.walk(directory)]. *)
Definition scan_entry (st : scan_state) (e : walk_entry) : progress :=
  let '(root, _, files) := e in
  if hidden root then Running st
  else if PyStr.contains "__pycache__" root then Running st
  else for_each (scan_file root) files st.

(** How the process ends: what it printed and opened, its exit code, and
    the exception of the traceback when one escaped (the interpreter then
    ends the process with status 1). *)
Record run : Type := {
  final : scan_state;
  exit_code : Z;
  traceback : option exn
}.

Definition scan_directory (env : os_env) (directory : string) : run :=
  let st :=
    print ("Scanning directory: " +++ abspath env directory
           +++ String PyStr.nl EmptyString) initial_state in
  match for_each scan_entry (os_walk_top env directory) st with
  | Crashed e st => {| final := st; exit_code := 1; traceback := Some e |}
  | Running st =>
      let st := print "--- Summary ---" st in
      let st :=
        print ("Total missing docstrings found: "
               +++ PyStr.str (total_missing st)) st in
      if 0 <? total_missing st
      then {| final := st; exit_code := 1; traceback := None |}
      else {| final := print "No missing docstrings found!" st;
              exit_code := 0;
              traceback := None |}
  end.

(** The [__main__] block; [argv] is [sys.argv]. *)
Definition target_dir (argv : list string) : string :=
  if (1 <? List.length argv)%nat then nth 1 argv EmptyString else ".".

Definition main (env : os_env) (argv : list string) : run :=
  let target := target_dir argv in
  if negb (isdir env target) then
    {| final :=
         print ("Error: Directory '" +++ target +++ "' does not exist.")
               initial_state;
       exit_code := 1;
       traceback := None |}
  else scan_directory env target.

(** ** What a scan is expected to report, stated without the loop state *)

(** A directory the scan passes over. *)
Definition skipped (root : string) : bool :=
  hidden root || PyStr.contains "__pycache__" root.

(** The files of one walked directory that are handed to [analyze_file]:
    path and content. *)
Definition file_candidate (root : string) (f : string * file_content)
  : list (string * file_content) :=
  if PyStr.endswith ".py" (fst f)
  then [(OsPath.join root (fst f), snd f)]
  else [].

Definition entry_candidates (e : walk_entry)
  : list (string * file_content) :=
  let '(root, _, files) := e in
  if skipped root then [] else flat_map (file_candidate root) files.

(** All the files a scan would analyse, in the order of the walk. *)
Definition candidates (env : os_env) (directory : string)
  : list (string * file_content) :=
  flat_map entry_candidates (os_walk_top env directory).

(** The candidates analysed one after the other: the items found in each
    file up to the first one on which [analyze_file] raises, and that file
    with its exception when there is one. *)
Fixpoint analyze_all (cs : list (string * file_content))
  : list (string * list item) * option (string * exn) :=
  match cs with
  | [] => ([], None)
  | (path, content) :: r =>
      match analyze_file path content with
      | Raises e => ([], Some (path, e))
      | Returns found =>
          let '(rs, crash) := analyze_all r in ((path, found) :: rs, crash)
      end
  end.

Definition analyzed (env : os_env) (directory : string)
  : list (string * list item) :=
  fst (analyze_all (candidates env directory)).

Definition crash (env : os_env) (directory : string)
  : option (string * exn) :=
  snd (analyze_all (candidates env directory)).

Definition findings (env : os_env) (directory : string) : list item :=
  flat_map snd (analyzed env directory).

Definition has_findings (r : string * list item) : bool :=
  match snd r with
  | [] => false
  | _ :: _ => true
  end.

(** The lines printed for one analysed file. *)
Definition block (r : string * list item) : list string :=
  if has_findings r
  then ((fst r +++ ":") :: map item_line (snd r)) ++ [EmptyString]
  else [].

Definition scan_header (env : os_env) (directory : string) : string :=
  "Scanning directory: " +++ abspath env directory
  +++ String PyStr.nl EmptyString.

Definition summary_line (count : Z) : string :=
  "Total missing docstrings found: " +++ PyStr.str count.



(** ** Nesting depth in a tree *)

Fixpoint height (n : node) : nat :=
  match n with
  | Module body => S (list_max (map height body))
  | FunctionDef _ _ body => S (list_max (map height body))
  | AsyncFunctionDef _ _ body => S (list_max (map height body))
  | ClassDef _ _ body => S (list_max (map height body))
  | Expr value => S (height value)
  | Constant _ => 1%nat
  | Other children => S (list_max (map height children))
  end.

(** The nodes at depth [d] below [n], left to right. *)
Fixpoint level (d : nat) (n : node) : list node :=
  match d with
  | O => [n]
  | S d' => flat_map (level d') (Ast.iter_child_nodes n)
  end.

(** The nodes of a tree by increasing depth, and left to right within one
    depth. *)
Definition level_order (tree : node) : list node :=
  flat_map (fun d => level d tree) (seq 0 (height tree)).

(** [n] occurs in [tree], at any depth. *)
Inductive occurs_in (tree : node) : node -> Prop :=
| occurs_root : occurs_in tree tree
| occurs_child :
    forall n c,
      occurs_in tree n -> In c (Ast.iter_child_nodes n) -> occurs_in tree c.

Definition is_function (n : node) : bool :=
  match n with
  | FunctionDef _ _ _ | AsyncFunctionDef _ _ _ => true
  | _ => false
  end.

Definition is_declaration (n : node) : bool :=
  match n with
  | FunctionDef _ _ _ | AsyncFunctionDef _ _ _ | ClassDef _ _ _ => true
  | _ => false
  end.

Definition node_name (n : node) : string :=
  match n with
  | FunctionDef name _ _ | AsyncFunctionDef name _ _ | ClassDef name _ _ =>
      name
  | _ => EmptyString
  end.

Definition node_lineno (n : node) : Z :=
  match n with
  | FunctionDef _ lineno _ | AsyncFunctionDef _ lineno _
  | ClassDef _ lineno _ => lineno
  | _ => 0
  end.

(** The analysis counts [n] as documented. *)
Definition documented (n : node) : bool := truthy (Ast.get_docstring n).


(** The items a call returned; none when it raised. *)
Definition returned (r : result (list item)) : list item :=
  match r with
  | Returns found => found
  | Raises _ => []
  end.

Definition item_type (it : item) : string := fst (fst it).
Definition item_lineno (it : item) : Z := snd (fst it).
Definition item_name (it : item) : string := snd it.

Fixpoint ascending (l : list Z) : bool :=
  match l with
  | a :: (b :: _) as rest => (a <=? b) && ascending rest
  | _ => true
  end.

(** ** The wording of the specification, for comparison *)

Module Spec.
Import PyStr.

(** [s.rstrip()] and [s.strip()]: trimming. *)
Fixpoint rstrip (s : string) : string :=
  match s with
  | EmptyString => EmptyString
  | String c r =>
      match rstrip r with
      | EmptyString => if isspace c then EmptyString else String c EmptyString
      | String c' r' => String c (String c' r')
      end
  end.

Definition strip (s : string) : string := rstrip (lstrip s).

(** Documented, as the specification words it: the first statement of
    the body is a standalone string literal that is non-empty after
    trimming. *)
Definition documented (n : node) : bool :=
  match Ast.iter_child_nodes n with
  | Expr (Constant (CStr text)) :: _ =>
      is_declaration n && nonempty (strip text)
  | _ => false
  end.

(** The report lines, as the specification words them. *)
Definition item_line (it : item) : string :=
  let '(kind, line, name) := it in
  "  - Line " +++ str line +++ ": " +++ kind +++ " '" +++ name
  +++ "' is missing a documentation block.".

Definition summary_line (count : Z) : string :=
  "Total missing documentation items found: " +++ str count.

End Spec.

(** The loop state as an accumulator: [extend st d] is [st] after the
    effects [d], and [effect_of rs] the effects of analysing the files
    [rs]. *)
Definition extend (st d : scan_state) : scan_state :=
  {| total_missing := total_missing st + total_missing d;
     files_scanned := files_scanned st + files_scanned d;
     stdout := stdout st ++ stdout d;
     opened := opened st ++ opened d |}.

Definition effect_of (rs : list (string * list item)) : scan_state :=
  {| total_missing := Z.of_nat (List.length (flat_map snd rs));
     files_scanned := Z.of_nat (List.length (filter has_findings rs));
     stdout := flat_map block rs;
     opened := map fst rs |}.

(** Where a loop stands after the analyses [a], started in [st]. *)
Definition finish (st : scan_state)
    (a : list (string * list item) * option (string * exn)) : progress :=
  match snd a with
  | None => Running (extend st (effect_of (fst a)))
  | Some (path, e) =>
      Crashed e (note_open path (extend st (effect_of (fst a))))
  end.

(** Some line after the first one is not empty. *)
Definition later_line_nonempty (text : string) : bool :=
  existsb PyStr.nonempty (tl (PyStr.split PyStr.nl text)).

(** ** Sample inputs *)

Module Samples.
Local Open Scope string_scope.

Definition doc : node := Expr (Constant (CStr "Return the answer.")).
Definition pass : node := Other [].

(** [class C:] with a documented method [a] (line 2) and an
    undocumented method [b] (line 4). *)
Definition class_two_methods : node :=
  Module [ClassDef "C" 1 [FunctionDef "a" 2 [doc]; FunctionDef "b" 4 [pass]]].

(** [def f():] whose body is a string literal holding a line feed and
    four spaces: an opening and a closing triple quote on two lines. *)
Definition blank_doc : node :=
  FunctionDef "f" 1 [Expr (Constant (CStr (String PyStr.nl "    ")))].

(** [def f():] whose body is the empty string literal. *)
Definition empty_doc : node :=
  FunctionDef "f" 1 [Expr (Constant (CStr ""))].

(** [def f():] (line 1) holding [def g():] (line 2), then [def h():]
    (line 4). *)
Definition nested_defs : node :=
  Module [FunctionDef "f" 1 [FunctionDef "g" 2 [pass]];
          FunctionDef "h" 4 [pass]].

(** [async def fetch(): pass] *)
Definition async_def : node := Module [AsyncFunctionDef "fetch" 1 [pass]].

(** [def f():] with a docstring, and nothing else. *)
Definition documented_def : node := Module [FunctionDef "f" 1 [doc]].

(** [def f(): pass] *)
Definition bare_def : node := Module [FunctionDef "f" 1 [pass]].

Definition parsed (tree : node) : file_content :=
  Readable (Source (Returns tree)).

(** A world where [path] names the directory [d] and nothing else
    exists. *)
Definition one_dir (path : string) (d : dirtree) : os_env :=
  {| abspath := fun p => "/home/user/" +++ p;
     resolve := fun p => if String.eqb p path then Some d else None |}.

Definition covered_project : os_env :=
  one_dir "proj" (Dir [("a.py", parsed documented_def)] []).

Definition bare_project : os_env :=
  one_dir "proj" (Dir [("a.py", parsed bare_def)] []).



Definition empty_world : os_env :=
  {| abspath := fun p => "/home/user/" +++ p; resolve := fun _ => None |}.

(** A text on which [ast.parse] raises [e]. *)
Definition raising (e : exn) : file_content := Readable (Source (Raises e)).

(** A project whose only file holds a null byte. *)
Definition nul_project : os_env :=
  one_dir "proj" (Dir [("nul.py", raising ValueError)] []).

(** An undocumented function, then a file with a null byte, then another
    undocumented function. *)
Definition crashing_project : os_env :=
  one_dir "proj"
    (Dir [("a.py", parsed bare_def); ("nul.py", raising ValueError);
          ("z.py", parsed bare_def)] []).


End Samples.

(** ** Reference notions for further properties *)

(** The nodes of a tree, parents before children and left to right. *)
Fixpoint preorder (n : node) : list node :=
  n :: match n with
       | Module body => flat_map preorder body
       | FunctionDef _ _ body => flat_map preorder body
       | AsyncFunctionDef _ _ body => flat_map preorder body
       | ClassDef _ _ body => flat_map preorder body
       | Expr value => preorder value
       | Constant _ => []
       | Other children => flat_map preorder children
       end.


Definition success_line : string := "No missing docstrings found!".

Definition error_line (target : string) : string :=
  "Error: Directory '" +++ target +++ "' does not exist.".


Module MoreSamples.
Local Open Scope string_scope.

(** A project with a version-control directory, a cache directory nested
    in a package, and a dot file. *)
Definition cluttered_dir : dirtree :=
  Dir [("a.py", Samples.parsed Samples.bare_def);
       (".hidden.py", Samples.parsed Samples.bare_def)]
      [(".git", Dir [("hook.py", Samples.parsed Samples.bare_def)] []);
       ("pkg",
        Dir [("b.py", Samples.parsed Samples.class_two_methods)]
            [("__pycache__",
              Dir [("b.cpython.py", Samples.parsed Samples.bare_def)] [])])].

Definition cluttered_project : os_env := Samples.one_dir "proj" cluttered_dir.



End MoreSamples.

(** Splits a membership hypothesis of a literal list into its cases. *)
Ltac pick_item H :=
  repeat match type of H with
         | In _ [] => destruct H
         | In _ (_ :: _) => destruct H as [<-|H]
         | False => destruct H
         end.

(** * Properties *)

(** ** The scan as an accumulation *)

Section ScanEffects.

Lemma extend_initial (st : scan_state) : extend st initial_state = st.
Proof.
  destruct st; unfold extend; simpl.
  rewrite !Z.add_0_r, !app_nil_r. reflexivity.
Qed.

Lemma extend_assoc (a b c : scan_state) :
  extend (extend a b) c = extend a (extend b c).
Proof.
  unfold extend; simpl.
  rewrite !Z.add_assoc, <- !app_assoc. reflexivity.
Qed.

Lemma effect_of_app (xs ys : list (string * list item)) :
  effect_of (xs ++ ys) = extend (effect_of xs) (effect_of ys).
Proof.
  unfold effect_of, extend; simpl.
  rewrite !flat_map_app, filter_app, map_app, !length_app, !Nat2Z.inj_add.
  reflexivity.
Qed.

Lemma effect_of_nil : effect_of [] = initial_state.
Proof. reflexivity. Qed.

Lemma report_items (missing : list item) :
  forall st,
    fold_left report_item missing st
    = extend st {| total_missing := Z.of_nat (List.length missing);
                   files_scanned := 0;
                   stdout := map item_line missing;
                   opened := [] |}.
Proof.
  induction missing as [|it missing IH]; intros st.
  - destruct st; unfold extend; simpl.
    rewrite !Z.add_0_r, !app_nil_r. reflexivity.
  - cbn [fold_left]. rewrite IH.
    destruct st; unfold extend, report_item, incr_total_missing, print.
    cbn [total_missing files_scanned stdout opened List.length map].
    rewrite Nat2Z.inj_succ, <- app_assoc. f_equal; simpl; lia.
Qed.

(** One file analysed without an exception: its effect on the state. *)
Lemma analysed_file_effect (st : scan_state) (path : string)
    (found : list item) :
  match found with
  | [] => note_open path st
  | _ :: _ =>
      print EmptyString
        (fold_left report_item found
           (print (path +++ ":") (incr_files_scanned (note_open path st))))
  end
  = extend st (effect_of [(path, found)]).
Proof.
  destruct found as [|it rest].
  - destruct st; unfold extend, note_open, effect_of, block, has_findings.
    simpl. rewrite !Z.add_0_r, app_nil_r. reflexivity.
  - rewrite report_items.
    destruct st; unfold extend, note_open, incr_files_scanned, print,
      effect_of, block, has_findings.
    cbn [total_missing files_scanned stdout opened fst snd flat_map
         filter map List.length app].
    rewrite !app_nil_r. f_equal; try lia.
    rewrite <- !app_assoc. reflexivity.
Qed.

Lemma finish_nil (st : scan_state) : finish st ([], None) = Running st.
Proof.
  unfold finish. cbn [fst snd]. rewrite effect_of_nil, extend_initial.
  reflexivity.
Qed.

Lemma finish_cons (st : scan_state) (r : string * list item)
    (rs : list (string * list item)) (c : option (string * exn)) :
  finish st (r :: rs, c) = finish (extend st (effect_of [r])) (rs, c).
Proof.
  unfold finish. cbn [fst snd].
  change (r :: rs) with ([r] ++ rs).
  rewrite effect_of_app, <- extend_assoc. reflexivity.
Qed.

(** Analysing two runs of files one after the other. *)
Lemma finish_app (xs : list (string * file_content)) :
  forall ys st,
    finish st (analyze_all (xs ++ ys))
    = match finish st (analyze_all xs) with
      | Running st' => finish st' (analyze_all ys)
      | Crashed e st' => Crashed e st'
      end.
Proof.
  induction xs as [|[path content] xs IH]; intros ys st.
  - cbn [app analyze_all]. rewrite finish_nil. reflexivity.
  - cbn [app analyze_all].
    destruct (analyze_file path content) as [found|e].
    + specialize (IH ys (extend st (effect_of [(path, found)]))).
      destruct (analyze_all (xs ++ ys)) as [rs c].
      destruct (analyze_all xs) as [rs' c'].
      rewrite !finish_cons. exact IH.
    + reflexivity.
Qed.

Lemma scan_file_finish (root : string) (st : scan_state)
    (f : string * file_content) :
  scan_file root st f = finish st (analyze_all (file_candidate root f)).
Proof.
  destruct f as [file content]. unfold scan_file, file_candidate.
  cbn [fst snd]. destruct (PyStr.endswith ".py" file).
  - cbn [analyze_all].
    destruct (analyze_file (OsPath.join root file) content) as [found|e].
    + rewrite finish_cons, finish_nil, <- analysed_file_effect.
      destruct found; reflexivity.
    + unfold finish. cbn [fst snd].
      rewrite effect_of_nil, extend_initial. reflexivity.
  - cbn [analyze_all]. rewrite finish_nil. reflexivity.
Qed.

Lemma scan_files_finish (root : string)
    (files : list (string * file_content)) :
  forall st,
    for_each (scan_file root) files st
    = finish st (analyze_all (flat_map (file_candidate root) files)).
Proof.
  induction files as [|f files IH]; intros st.
  - cbn [for_each flat_map analyze_all]. rewrite finish_nil. reflexivity.
  - cbn [for_each flat_map]. rewrite finish_app, <- scan_file_finish.
    destruct (scan_file root st f); [apply IH | reflexivity].
Qed.

Lemma scan_entry_finish (st : scan_state) (e : walk_entry) :
  scan_entry st e = finish st (analyze_all (entry_candidates e)).
Proof.
  destruct e as [[root dirs] files].
  unfold scan_entry, entry_candidates, skipped.
  destruct (hidden root); cbn [orb].
  - cbn [analyze_all]. rewrite finish_nil. reflexivity.
  - destruct (PyStr.contains "__pycache__" root).
    + cbn [analyze_all]. rewrite finish_nil. reflexivity.
    + apply scan_files_finish.
Qed.

Lemma scan_walk_finish (entries : list walk_entry) :
  forall st,
    for_each scan_entry entries st
    = finish st (analyze_all (flat_map entry_candidates entries)).
Proof.
  induction entries as [|e entries IH]; intros st.
  - cbn [for_each flat_map analyze_all]. rewrite finish_nil. reflexivity.
  - cbn [for_each flat_map]. rewrite finish_app, <- scan_entry_finish.
    destruct (scan_entry st e); [apply IH | reflexivity].
Qed.

(** The closed form of a scan: the files analysed before any exception
    escapes decide the counters and the blocks; the summary is printed
    only when no exception escapes. *)
Lemma scan_directory_run (env : os_env) (directory : string) :
  let rs := analyzed env directory in
  let total := Z.of_nat (List.length (findings env directory)) in
  scan_directory env directory
  = match crash env directory with
    | None =>
        {| final :=
             {| total_missing := total;
                files_scanned :=
                  Z.of_nat (List.length (filter has_findings rs));
                stdout :=
                  scan_header env directory
                  :: flat_map block rs
                     ++ ["--- Summary ---"%string; summary_line total]
                     ++ (if 0 <? total then []
                         else ["No missing docstrings found!"%string]);
                opened := map fst rs |};
           exit_code := if 0 <? total then 1 else 0;
           traceback := None |}
    | Some (path, e) =>
        {| final :=
             {| total_missing := total;
                files_scanned :=
                  Z.of_nat (List.length (filter has_findings rs));
                stdout := scan_header env directory :: flat_map block rs;
                opened := map fst rs ++ [path] |};
           exit_code := 1;
           traceback := Some e |}
    end.
Proof.
  intros rs total. unfold scan_directory.
  rewrite scan_walk_finish. fold (candidates env directory).
  unfold finish. fold (analyzed env directory) (crash env directory). fold rs.
  destruct (crash env directory) as [[path e]|].
  - unfold extend, note_open, print, initial_state, effect_of.
    cbn [total_missing files_scanned stdout opened app].
    rewrite !Z.add_0_l. reflexivity.
  - unfold extend, print, initial_state, effect_of.
    cbn [total_missing files_scanned stdout opened app].
    rewrite !Z.add_0_l.
    change (Z.of_nat (List.length (flat_map snd rs))) with total.
    destruct (0 <? total); unfold scan_header, summary_line;
      cbn [final exit_code total_missing files_scanned stdout opened];
      rewrite <- ?app_assoc; reflexivity.
Qed.

(** [files_scanned] counts the files that have findings. *)
Lemma files_scanned_counts_reported (env : os_env) (directory : string) :
  files_scanned (final (scan_directory env directory))
  = Z.of_nat (List.length (filter has_findings (analyzed env directory))).
Proof.
  rewrite scan_directory_run.
  destruct (crash env directory) as [[path e]|]; reflexivity.
Qed.

Lemma analyze_all_results (cs : list (string * file_content))
    (r : string * list item) :
  In r (fst (analyze_all cs)) ->
  exists content,
    In (fst r, content) cs /\ analyze_file (fst r) content = Returns (snd r).
Proof.
  induction cs as [|[path content] cs IH]; [intros []|].
  cbn [analyze_all].
  destruct (analyze_file path content) as [found|e] eqn:E; [|intros []].
  destruct (analyze_all cs) as [rs c]. cbn [fst snd] in IH |- *.
  intros [<-|Hin].
  - exists content. split; [left; reflexivity | exact E].
  - destruct (IH Hin) as [content' [Hc Ha]].
    exists content'. split; [right; exact Hc | exact Ha].
Qed.

Lemma analyze_all_crash (cs : list (string * file_content))
    (path : string) (e : exn) :
  snd (analyze_all cs) = Some (path, e) ->
  exists content, In (path, content) cs /\ analyze_file path content = Raises e.
Proof.
  induction cs as [|[p content] cs IH]; [discriminate|].
  cbn [analyze_all].
  destruct (analyze_file p content) as [found|e'] eqn:E.
  - destruct (analyze_all cs) as [rs c]. cbn [fst snd] in IH |- *.
    intros Hc. destruct (IH Hc) as [content' [Hin Ha]].
    exists content'. split; [right; exact Hin | exact Ha].
  - cbn [snd]. intros Heq. inversion Heq; subst.
    exists content. split; [left; reflexivity | exact E].
Qed.

(** When no candidate raises, every candidate is analysed. *)
Lemma analyze_all_complete (cs : list (string * file_content)) :
  snd (analyze_all cs) = None ->
  forall path content,
    In (path, content) cs ->
    exists found,
      analyze_file path content = Returns found
      /\ In (path, found) (fst (analyze_all cs)).
Proof.
  induction cs as [|[p c] cs IH]; intros Hnone path content Hin;
    [destruct Hin|].
  cbn [analyze_all] in Hnone |- *.
  destruct (analyze_file p c) as [found|e] eqn:E; [|discriminate].
  destruct (analyze_all cs) as [rs cr]. cbn [fst snd] in IH, Hnone |- *.
  destruct Hin as [Heq|Hin].
  - inversion Heq; subst. exists found. split; [exact E | left; reflexivity].
  - destruct (IH Hnone _ _ Hin) as [found' [Ha Hr]].
    exists found'. split; [exact Ha | right; exact Hr].
Qed.


End ScanEffects.

(** ** [ast.walk] visits the tree level by level *)

Section WalkOrder.
Import Ast.

Lemma node_count_children (n : node) :
  node_count n = S (count_list (iter_child_nodes n)).
Proof.
  destruct n; unfold count_list; simpl; try reflexivity.
  rewrite Nat.add_0_r. reflexivity.
Qed.

Lemma count_list_app (xs ys : list node) :
  count_list (xs ++ ys) = (count_list xs + count_list ys)%nat.
Proof. unfold count_list. rewrite map_app, list_sum_app. reflexivity. Qed.

Lemma count_list_cons (x : node) (xs : list node) :
  count_list (x :: xs) = (node_count x + count_list xs)%nat.
Proof. reflexivity. Qed.

Lemma count_list_length (xs : list node) :
  (List.length xs <= count_list xs)%nat.
Proof.
  induction xs as [|x xs IH]; [apply Nat.le_refl|].
  rewrite count_list_cons, node_count_children. simpl. lia.
Qed.

Lemma count_list_children (xs : list node) :
  count_list xs
  = (List.length xs + count_list (flat_map iter_child_nodes xs))%nat.
Proof.
  induction xs as [|x xs IH]; [reflexivity|].
  cbn [flat_map List.length].
  rewrite count_list_cons, count_list_app, node_count_children, IH. lia.
Qed.

(** Popping a whole prefix of the queue: its nodes are yielded in order
    and their children queue up behind the rest. *)
Lemma walk_queue_prefix (xs : list node) :
  forall ys fuel,
    (count_list (xs ++ ys) <= fuel)%nat ->
    walk_queue fuel (xs ++ ys)
    = xs ++ walk_queue (fuel - List.length xs)
              (ys ++ flat_map iter_child_nodes xs).
Proof.
  induction xs as [|x xs IH]; intros ys fuel Hfuel.
  - cbn [app flat_map List.length]. rewrite Nat.sub_0_r, app_nil_r.
    reflexivity.
  - rewrite <- app_comm_cons, count_list_cons, node_count_children,
      count_list_app in Hfuel.
    destruct fuel as [|fuel]; [lia|].
    cbn [walk_queue app List.length flat_map Nat.sub].
    rewrite <- app_assoc, IH.
    + rewrite <- app_assoc. reflexivity.
    + rewrite !count_list_app. lia.
Qed.

Lemma level_zero (l : list node) : flat_map (level 0) l = l.
Proof.
  induction l as [|x l IH]; [reflexivity|].
  change (x :: flat_map (level 0) l = x :: l). rewrite IH. reflexivity.
Qed.

Lemma flat_map_flat_map {A B C : Type} (f : A -> list B) (g : B -> list C)
    (l : list A) :
  flat_map g (flat_map f l) = flat_map (fun x => flat_map g (f x)) l.
Proof.
  induction l as [|x l IH]; [reflexivity|].
  cbn [flat_map]. rewrite flat_map_app, IH. reflexivity.
Qed.

Lemma flat_map_step {A B : Type} (f : A -> list B) (x : A) (l : list A) :
  flat_map f (x :: l) = f x ++ flat_map f l.
Proof. reflexivity. Qed.

Lemma flat_map_of_map {A B C : Type} (f : B -> list C) (g : A -> B)
    (l : list A) :
  flat_map f (map g l) = flat_map (fun x => f (g x)) l.
Proof.
  induction l as [|x l IH]; [reflexivity|].
  cbn [map flat_map]. rewrite IH. reflexivity.
Qed.

Lemma level_succ (d : nat) (l : list node) :
  flat_map (level (S d)) l = flat_map (level d) (flat_map iter_child_nodes l).
Proof. rewrite flat_map_flat_map. reflexivity. Qed.

Lemma height_children (n : node) :
  height n = S (list_max (map height (iter_child_nodes n))).
Proof.
  destruct n; simpl; try reflexivity.
  rewrite Nat.max_0_r. reflexivity.
Qed.

Lemma height_bound_children (h : nat) (l : list node) :
  Forall (fun n => (height n <= S h)%nat) l ->
  Forall (fun n => (height n <= h)%nat) (flat_map iter_child_nodes l).
Proof.
  induction 1 as [|x l Hx _ IH]; [constructor|].
  cbn [flat_map]. apply Forall_app. split; [|exact IH].
  rewrite height_children in Hx.
  apply Forall_forall. intros c Hc.
  assert (Hmax : (list_max (map height (iter_child_nodes x)) <= h)%nat) by lia.
  apply list_max_le in Hmax. rewrite Forall_forall in Hmax.
  apply Hmax, in_map, Hc.
Qed.

Lemma walk_queue_levels (h : nat) :
  forall l fuel,
    Forall (fun n => (height n <= h)%nat) l ->
    (count_list l <= fuel)%nat ->
    walk_queue fuel l
    = flat_map (fun d => flat_map (level d) l) (seq 0 h).
Proof.
  induction h as [|h IH]; intros l fuel Hh Hfuel.
  - destruct l as [|x l].
    + destruct fuel; reflexivity.
    + inversion Hh as [|? ? Hx _]; subst.
      rewrite height_children in Hx. lia.
  - rewrite <- (app_nil_r l) at 1.
    rewrite walk_queue_prefix by (rewrite app_nil_r; exact Hfuel).
    cbn [app]. rewrite (IH _ _ (height_bound_children _ _ Hh)).
    + change (seq 0 (S h)) with (0%nat :: seq 1 h).
      rewrite flat_map_step. cbv beta. rewrite level_zero. f_equal.
      rewrite <- seq_shift, flat_map_of_map.
      apply flat_map_ext. intros d. symmetry. apply level_succ.
    + rewrite (count_list_children l) in Hfuel. lia.
Qed.

(** The bound on the recursion is never reached before the queue is empty:
    every node of the queue is yielded. *)
Lemma walk_queue_length (fuel : nat) :
  forall l,
    (count_list l <= fuel)%nat ->
    List.length (walk_queue fuel l) = count_list l.
Proof.
  induction fuel as [|fuel IH]; intros l Hfuel.
  - pose proof (count_list_length l) as Hlen.
    destruct l; [reflexivity | cbn [List.length] in Hlen; lia].
  - destruct l as [|n rest]; [reflexivity|].
    rewrite count_list_cons, node_count_children in Hfuel |- *.
    cbn [walk_queue List.length]. rewrite IH; rewrite count_list_app; lia.
Qed.

Lemma walk_length (tree : node) : List.length (walk tree) = node_count tree.
Proof.
  unfold walk. rewrite walk_queue_length; unfold count_list; simpl; lia.
Qed.

(** The walk yields every node, in level order. *)
Lemma walk_level_order (tree : node) : walk tree = level_order tree.
Proof.
  unfold walk, level_order.
  rewrite (walk_queue_levels (height tree)).
  - apply flat_map_ext. intros d. cbn [flat_map]. apply app_nil_r.
  - constructor; [apply Nat.le_refl | constructor].
  - unfold count_list. simpl. lia.
Qed.

Lemma level_child (d : nat) :
  forall tree n c,
    In n (level d tree) -> In c (iter_child_nodes n) ->
    In c (level (S d) tree).
Proof.
  induction d as [|d IH]; intros tree n c Hn Hc.
  - destruct Hn as [<-|[]]. cbn [level].
    rewrite level_zero. exact Hc.
  - cbn [level] in Hn. apply in_flat_map in Hn as [k [Hk Hn]].
    change (In c (flat_map (level (S d)) (iter_child_nodes tree))).
    apply in_flat_map. exists k. split; [exact Hk|].
    eapply IH; eassumption.
Qed.

Lemma level_below_height (d : nat) :
  forall tree n, In n (level d tree) -> (d < height tree)%nat.
Proof.
  induction d as [|d IH]; intros tree n Hn.
  - rewrite height_children. lia.
  - cbn [level] in Hn. apply in_flat_map in Hn as [k [Hk Hn]].
    apply IH in Hn. rewrite height_children.
    assert (Hle : (height k <= list_max (map height (iter_child_nodes tree)))%nat).
    { pose proof (Nat.le_refl (list_max (map height (iter_child_nodes tree)))) as Hmax.
      apply list_max_le in Hmax. rewrite Forall_forall in Hmax.
      apply Hmax, in_map, Hk. }
    lia.
Qed.

Lemma occurs_in_level (tree n : node) :
  occurs_in tree n -> exists d, In n (level d tree).
Proof.
  induction 1 as [|n c _ [d Hd] Hc].
  - exists 0%nat. left. reflexivity.
  - exists (S d). eapply level_child; eassumption.
Qed.

Lemma occurs_in_walk (tree n : node) :
  occurs_in tree n -> In n (walk tree).
Proof.
  intros H. apply occurs_in_level in H as [d Hd].
  rewrite walk_level_order. unfold level_order.
  apply in_flat_map. exists d. split; [|exact Hd].
  apply in_seq. pose proof (level_below_height _ _ _ Hd). lia.
Qed.

Lemma level_occurs (d : nat) :
  forall tree n, In n (level d tree) -> occurs_in tree n.
Proof.
  induction d as [|d IH]; intros tree n Hn.
  - destruct Hn as [<-|[]]. constructor.
  - cbn [level] in Hn. apply in_flat_map in Hn as [k [Hk Hn]].
    apply IH in Hn. clear IH.
    induction Hn as [|m c _ IHm Hc].
    + eapply occurs_child; [constructor | exact Hk].
    + eapply occurs_child; [exact IHm | exact Hc].
Qed.

Lemma walk_occurs (tree n : node) : In n (walk tree) -> occurs_in tree n.
Proof.
  rewrite walk_level_order. unfold level_order. intros H.
  apply in_flat_map in H as [d [_ Hd]]. eapply level_occurs, Hd.
Qed.

Lemma fold_left_append {A B : Type} (f : A -> list B) (l : list A) :
  forall acc, fold_left (fun acc x => acc ++ f x) l acc = acc ++ flat_map f l.
Proof.
  induction l as [|x l IH]; intros acc.
  - simpl. rewrite app_nil_r. reflexivity.
  - cbn [fold_left flat_map]. rewrite IH, <- app_assoc. reflexivity.
Qed.

Lemma missing_items_walk (tree : node) :
  missing_items tree = flat_map check_node (walk tree).
Proof. unfold missing_items. rewrite fold_left_append. reflexivity. Qed.

End WalkOrder.

(** ** Hidden path segments survive [os.path.join] *)

Section HiddenPaths.
Import PyStr.

Lemma split_cons (sep : ascii) (s : string) :
  split sep s = hd EmptyString (split sep s) :: tl (split sep s).
Proof.
  destruct s as [|c r]; [reflexivity|].
  simpl. destruct (Ascii.eqb c sep); [reflexivity|].
  destruct (split sep r); reflexivity.
Qed.









End HiddenPaths.

(** ** [inspect.cleandoc] keeps what is not white space *)

Section CleandocFacts.
Import PyStr Inspect.

Lemma has_nonspace_app (a b : string) :
  has_nonspace (a +++ b) = has_nonspace a || has_nonspace b.
Proof.
  induction a as [|c a IH]; [reflexivity|].
  cbn [String.append has_nonspace]. rewrite IH, orb_assoc. reflexivity.
Qed.

Lemma has_nonspace_spaces (n : nat) : has_nonspace (spaces n) = false.
Proof. induction n as [|n IH]; [reflexivity | exact IH]. Qed.

Lemma has_nonspace_expandtabs (s : string) :
  forall col, has_nonspace (expandtabs_from col s) = has_nonspace s.
Proof.
  induction s as [|c r IH]; intros col; [reflexivity|].
  cbn [expandtabs_from]. destruct (Ascii.eqb c tab) eqn:Etab.
  - apply Ascii.eqb_eq in Etab. subst c.
    rewrite has_nonspace_app, has_nonspace_spaces, IH. reflexivity.
  - destruct (Ascii.eqb c nl || Ascii.eqb c cr);
      cbn [has_nonspace]; rewrite IH; reflexivity.
Qed.

Lemma has_nonspace_split (s : string) :
  existsb has_nonspace (split nl s) = has_nonspace s.
Proof.
  induction s as [|c r IH]; [reflexivity|].
  cbn [split]. destruct (Ascii.eqb c nl) eqn:Enl.
  - apply Ascii.eqb_eq in Enl. subst c.
    cbn [existsb has_nonspace]. rewrite IH. reflexivity.
  - rewrite (split_cons nl r) in IH |- *.
    cbn [existsb has_nonspace] in IH |- *.
    rewrite <- IH, orb_assoc. reflexivity.
Qed.

Lemma has_nonspace_lstrip (s : string) :
  has_nonspace (lstrip s) = has_nonspace s.
Proof.
  induction s as [|c r IH]; [reflexivity|].
  cbn [lstrip]. destruct (isspace c) eqn:E.
  - cbn [has_nonspace]. rewrite E, IH. reflexivity.
  - reflexivity.
Qed.

Lemma has_nonspace_nonempty (s : string) :
  has_nonspace s = true -> nonempty s = true.
Proof. destruct s; [discriminate | reflexivity]. Qed.

Lemma rstrip_empty (s : string) :
  Spec.rstrip s = EmptyString <-> has_nonspace s = false.
Proof.
  induction s as [|c r IH]; [split; reflexivity|].
  cbn [Spec.rstrip has_nonspace].
  destruct (Spec.rstrip r) as [|c' r'].
  - assert (Hr : has_nonspace r = false) by (apply IH; reflexivity).
    rewrite Hr, orb_false_r. destruct (isspace c); split;
      intros H; try reflexivity; discriminate.
  - assert (Hr : has_nonspace r = true).
    { destruct (has_nonspace r); [reflexivity|].
      assert (Habs : String c' r' = EmptyString) by (apply IH; reflexivity).
      discriminate. }
    rewrite Hr, orb_true_r. split; discriminate.
Qed.

(** Non-empty after trimming: some character is not white space. *)
Lemma strip_nonempty (s : string) :
  nonempty (Spec.strip s) = true <-> has_nonspace s = true.
Proof.
  unfold Spec.strip. rewrite <- (has_nonspace_lstrip s).
  pose proof (rstrip_empty (lstrip s)) as [Hto Hfrom].
  destruct (Spec.rstrip (lstrip s)) as [|c r];
    destruct (has_nonspace (lstrip s)); cbn [nonempty]; split; intros H;
    try reflexivity; try discriminate.
  - specialize (Hto eq_refl). discriminate.
  - specialize (Hfrom eq_refl). discriminate.
Qed.

Lemma lstrip_length (s : string) :
  (String.length (lstrip s) <= String.length s)%nat.
Proof.
  induction s as [|c r IH]; [apply Nat.le_refl|].
  cbn [lstrip]. destruct (isspace c); cbn [String.length]; lia.
Qed.

(** Cutting no more than the indentation leaves the content in place. *)
Lemma lstrip_skip (s : string) :
  forall k,
    (k <= String.length s - String.length (lstrip s))%nat ->
    lstrip (skip k s) = lstrip s.
Proof.
  induction s as [|c r IH]; intros k Hk.
  - destruct k; reflexivity.
  - destruct k as [|k]; [reflexivity|].
    cbn [skip lstrip] in Hk |- *. destruct (isspace c).
    + apply IH. pose proof (lstrip_length r). cbn [String.length] in Hk. lia.
    + cbn [String.length] in Hk. lia.
Qed.

Lemma margin_step_le (m : Z) (line : string) : margin_step m line <= m.
Proof.
  unfold margin_step. destruct (len (lstrip line) =? 0); lia.
Qed.

Lemma margin_le_start (lines : list string) :
  forall m, fold_left margin_step lines m <= m.
Proof.
  induction lines as [|l lines IH]; intros m; [apply Z.le_refl|].
  cbn [fold_left]. pose proof (IH (margin_step m l)).
  pose proof (margin_step_le m l). lia.
Qed.

Lemma margin_le_indent (lines : list string) (line : string) :
  forall m,
    In line lines -> has_nonspace line = true ->
    fold_left margin_step lines m <= len line - len (lstrip line).
Proof.
  induction lines as [|l lines IH]; intros m Hin Hline; [destruct Hin|].
  cbn [fold_left]. destruct Hin as [->|Hin].
  - pose proof (margin_le_start lines (margin_step m line)) as Hle.
    unfold margin_step in Hle |- * .
    assert (Hcontent : (len (lstrip line) =? 0) = false).
    { apply Z.eqb_neq. unfold len.
      rewrite <- has_nonspace_lstrip in Hline.
      destruct (lstrip line); [discriminate | cbn [String.length]; lia]. }
    rewrite Hcontent in Hle |- *. lia.
  - apply IH; assumption.
Qed.

Lemma nonempty_pop_leading (lines : list string) :
  existsb nonempty (pop_leading_blank lines) = existsb nonempty lines.
Proof.
  induction lines as [|l lines IH]; [reflexivity|].
  destruct l; [exact IH | reflexivity].
Qed.

Lemma existsb_rev {A : Type} (f : A -> bool) (l : list A) :
  existsb f (rev l) = existsb f l.
Proof.
  induction l as [|x l IH]; [reflexivity|].
  cbn [rev existsb]. rewrite existsb_app, IH. cbn [existsb].
  rewrite orb_false_r. apply orb_comm.
Qed.

Lemma nonempty_pop_trailing (lines : list string) :
  existsb nonempty (pop_trailing_blank lines) = existsb nonempty lines.
Proof.
  unfold pop_trailing_blank.
  rewrite existsb_rev, nonempty_pop_leading, existsb_rev. reflexivity.
Qed.

Lemma nonempty_join (sep : string) (lines : list string) :
  existsb nonempty lines = true -> nonempty (join sep lines) = true.
Proof.
  induction lines as [|l lines IH]; [discriminate|].
  intros H. cbn [join]. destruct lines as [|l' lines].
  - cbn [existsb] in H. rewrite orb_false_r in H. exact H.
  - destruct l as [|c l]; [|reflexivity].
    cbn [String.append]. destruct sep as [|c sep]; [|reflexivity].
    cbn [String.append]. apply IH. exact H.
Qed.

(** A text with a character that is not white space is never cleaned
    down to the empty string. *)
Lemma cleandoc_nonempty (doc : string) :
  has_nonspace doc = true -> nonempty (cleandoc doc) = true.
Proof.
  intros Hdoc. unfold cleandoc, find_margin.
  pose proof (has_nonspace_split (expandtabs doc)) as Hlines.
  unfold expandtabs in Hlines at 2.
  rewrite has_nonspace_expandtabs, Hdoc in Hlines.
  destruct (split nl (expandtabs doc)) as [|first rest]; [discriminate|].
  cbn [tl]. set (margin := fold_left margin_step rest sys_maxsize).
  apply nonempty_join.
  rewrite nonempty_pop_leading, nonempty_pop_trailing.
  cbn [existsb] in Hlines. apply orb_true_iff in Hlines as [Hfirst|Hrest].
  - assert (Hhead : nonempty (lstrip first) = true).
    { apply has_nonspace_nonempty. rewrite has_nonspace_lstrip. exact Hfirst. }
    destruct (margin <? sys_maxsize); cbn [existsb]; rewrite Hhead;
      reflexivity.
  - apply existsb_exists in Hrest as [line [Hin Hline]].
    destruct (margin <? sys_maxsize); cbn [existsb]; apply orb_true_iff;
      right; apply existsb_exists.
    + exists (slice_from margin line). split; [apply in_map, Hin|].
      apply has_nonspace_nonempty. rewrite <- has_nonspace_lstrip.
      unfold slice_from. rewrite lstrip_skip.
      * rewrite has_nonspace_lstrip. exact Hline.
      * pose proof (margin_le_indent rest line sys_maxsize Hin Hline) as Hm.
        fold margin in Hm. unfold len in Hm.
        pose proof (lstrip_length line). lia.
    + exists line. split; [exact Hin | apply has_nonspace_nonempty, Hline].
Qed.

Lemma cleandoc_empty : cleandoc EmptyString = EmptyString.
Proof. reflexivity. Qed.

Lemma lstrip_blank (s : string) :
  has_nonspace s = false -> lstrip s = EmptyString.
Proof.
  induction s as [|c r IH]; [reflexivity|].
  cbn [has_nonspace lstrip]. intros H. apply orb_false_iff in H as [Hc Hr].
  apply negb_false_iff in Hc. rewrite Hc. apply IH, Hr.
Qed.

(** With blank lines only, the margin stays at its start value. *)
Lemma margin_blank_lines (lines : list string) :
  forall m,
    existsb has_nonspace lines = false ->
    fold_left margin_step lines m = m.
Proof.
  induction lines as [|l lines IH]; intros m H; [reflexivity|].
  cbn [existsb] in H. apply orb_false_iff in H as [Hl Hlines].
  cbn [fold_left]. unfold margin_step at 2.
  rewrite (lstrip_blank _ Hl). cbn. apply IH, Hlines.
Qed.

Lemma pop_leading_all_empty (lines : list string) :
  existsb nonempty lines = false -> pop_leading_blank lines = [].
Proof.
  induction lines as [|l lines IH]; [reflexivity|].
  cbn [existsb]. intros H. apply orb_false_iff in H as [Hl Hlines].
  destruct l; [exact (IH Hlines) | discriminate].
Qed.

(** After the blank lines at both ends are dropped, the joined text is
    empty exactly when every line was. *)
Lemma nonempty_cleaned_lines (sep : string) (lines : list string) :
  nonempty (join sep (pop_leading_blank (pop_trailing_blank lines)))
  = existsb nonempty lines.
Proof.
  destruct (existsb nonempty lines) eqn:E.
  - apply nonempty_join.
    rewrite nonempty_pop_leading, nonempty_pop_trailing. exact E.
  - rewrite pop_leading_all_empty; [reflexivity|].
    rewrite nonempty_pop_trailing. exact E.
Qed.

Lemma split_spaces (n : nat) (s : string) :
  split nl (spaces n +++ s)
  = (spaces n +++ hd EmptyString (split nl s)) :: tl (split nl s).
Proof.
  induction n as [|n IH]; [apply split_cons|].
  cbn [spaces String.append split].
  change (Ascii.eqb space nl) with false. cbv iota.
  rewrite IH. reflexivity.
Qed.

(** Expanding the tabs keeps which lines are empty. *)
Lemma expandtabs_lines (s : string) :
  forall col,
    nonempty (hd EmptyString (split nl (expandtabs_from col s)))
    = nonempty (hd EmptyString (split nl s))
    /\ existsb nonempty (tl (split nl (expandtabs_from col s)))
       = existsb nonempty (tl (split nl s)).
Proof.
  induction s as [|c r IH]; intros col; [split; reflexivity|].
  cbn [expandtabs_from]. destruct (Ascii.eqb c tab) eqn:Etab.
  - apply Ascii.eqb_eq in Etab. subst c.
    destruct (IH (col + (8 - col mod 8))%nat) as [_ Htl].
    rewrite split_spaces. cbn [hd tl split].
    change (Ascii.eqb tab nl) with false. cbv iota.
    rewrite (split_cons nl r). cbn [hd tl]. split; [|exact Htl].
    assert (Hincr : exists k, (8 - col mod 8 = S k)%nat).
    { pose proof (Nat.mod_upper_bound col 8). exists (7 - col mod 8)%nat. lia. }
    destruct Hincr as [k ->]. reflexivity.
  - assert (Hkeep : forall col',
              nonempty (hd EmptyString
                          (split nl (String c (expandtabs_from col' r))))
              = nonempty (hd EmptyString (split nl (String c r)))
              /\ existsb nonempty
                   (tl (split nl (String c (expandtabs_from col' r))))
                 = existsb nonempty (tl (split nl (String c r)))).
    { intros col'. destruct (IH col') as [Hhd Htl].
      cbn [split]. destruct (Ascii.eqb c nl).
      - cbn [hd tl]. split; [reflexivity|].
        rewrite (split_cons nl (expandtabs_from col' r)), (split_cons nl r).
        cbn [existsb]. rewrite Hhd, Htl. reflexivity.
      - rewrite (split_cons nl (expandtabs_from col' r)), (split_cons nl r).
        cbn [hd tl]. split; [reflexivity | exact Htl]. }
    destruct (Ascii.eqb c nl || Ascii.eqb c cr); apply Hkeep.
Qed.

(** What [inspect.cleandoc] leaves: the cleaned text is not empty exactly
    when the text has a character that is not white space, or a line after
    the first one that is not empty. *)
Lemma cleandoc_nonempty_iff (doc : string) :
  nonempty (cleandoc doc) = has_nonspace doc || later_line_nonempty doc.
Proof.
  destruct (has_nonspace doc) eqn:Hdoc.
  - rewrite (cleandoc_nonempty _ Hdoc). reflexivity.
  - cbn [orb]. unfold later_line_nonempty.
    destruct (expandtabs_lines doc 0) as [_ Htl]. fold (expandtabs doc) in Htl.
    rewrite <- Htl. unfold cleandoc, find_margin.
    pose proof (has_nonspace_split (expandtabs doc)) as Hlines.
    unfold expandtabs in Hlines at 2.
    rewrite has_nonspace_expandtabs, Hdoc in Hlines.
    destruct (split nl (expandtabs doc)) as [|first rest];
      [reflexivity|].
    cbn [existsb] in Hlines. apply orb_false_iff in Hlines as [Hfirst Hrest].
    cbn [tl]. rewrite (margin_blank_lines _ _ Hrest).
    change (sys_maxsize <? sys_maxsize) with false. cbv iota.
    rewrite nonempty_cleaned_lines, (lstrip_blank _ Hfirst). reflexivity.
Qed.

End CleandocFacts.

(** ** What the per-file analysis reports *)

Section Analysis.

Lemma check_node_function (n : node) :
  is_function n = true ->
  check_node n
  = if documented n then []
    else [("Function"%string, node_lineno n, node_name n)].
Proof.
  destruct n; try discriminate; intros _; unfold check_node, documented;
    match goal with |- context [truthy ?d] => destruct (truthy d) end;
    reflexivity.
Qed.

Lemma check_method_function (class_name : string) (n : node) :
  is_function n = true ->
  check_method class_name n
  = if documented n then []
    else [("Method"%string, node_lineno n,
           class_name +++ "." +++ node_name n)].
Proof.
  destruct n; try discriminate; intros _; unfold check_method, documented;
    match goal with |- context [truthy ?d] => destruct (truthy d) end;
    reflexivity.
Qed.

Lemma check_method_type (class_name : string) (n : node) (it : item) :
  In it (check_method class_name n) -> item_type it = "Method"%string.
Proof.
  destruct n; cbn [check_method]; intros H; try (destruct H; fail);
    match type of H with context [truthy ?d] => destruct (truthy d) end;
    cbn [negb] in H; pick_item H; reflexivity.
Qed.

Lemma check_node_type (n : node) (it : item) :
  In it (check_node n) ->
  item_type it = "Function"%string \/ item_type it = "Class"%string
  \/ item_type it = "Method"%string.
Proof.
  destruct n; cbn [check_node]; intros H; try (destruct H; fail);
    match type of H with context [truthy ?d] => destruct (truthy d) end;
    cbn [negb app] in H; pick_item H;
    try (left; reflexivity); try (right; left; reflexivity);
    apply in_flat_map in H as [m [_ H]];
    right; right; eapply check_method_type, H.
Qed.

(** An undocumented function is reported wherever it sits in the tree. *)
Lemma undocumented_function_reported (tree n : node) :
  occurs_in tree n -> is_function n = true -> documented n = false ->
  In ("Function"%string, node_lineno n, node_name n) (missing_items tree).
Proof.
  intros Hocc Hfun Hdoc. rewrite missing_items_walk.
  apply in_flat_map. exists n. split; [apply occurs_in_walk, Hocc|].
  rewrite (check_node_function _ Hfun), Hdoc. left. reflexivity.
Qed.

(** An undocumented function in the body of a class is reported under
    both labels. *)
Lemma undocumented_method_reported_twice (tree m : node)
    (class_name : string) (lineno : Z) (body : list node) :
  occurs_in tree (ClassDef class_name lineno body) ->
  In m body -> is_function m = true -> documented m = false ->
  In ("Method"%string, node_lineno m, class_name +++ "." +++ node_name m)
     (missing_items tree)
  /\ In ("Function"%string, node_lineno m, node_name m) (missing_items tree).
Proof.
  intros Hocc Hin Hfun Hdoc. split.
  - rewrite missing_items_walk. apply in_flat_map.
    exists (ClassDef class_name lineno body).
    split; [apply occurs_in_walk, Hocc|].
    cbn [check_node]. apply in_or_app. right.
    apply in_flat_map. exists m. split; [exact Hin|].
    rewrite (check_method_function _ _ Hfun), Hdoc. left. reflexivity.
  - apply undocumented_function_reported; [|exact Hfun|exact Hdoc].
    eapply occurs_child; [exact Hocc | exact Hin].
Qed.

Lemma documented_iff_docstring (n : node) :
  is_declaration n = true ->
  (documented n = true
   <-> exists text rest,
         Ast.iter_child_nodes n = Expr (Constant (CStr text)) :: rest
         /\ PyStr.nonempty (Inspect.cleandoc text) = true).
Proof.
  intros Hdecl. unfold documented.
  destruct n as [|? ? body|? ? body|? ? body| | |]; try discriminate;
    cbn [Ast.get_docstring Ast.iter_child_nodes]; (split;
    [ intros H; destruct body as [|first rest]; [discriminate|];
      destruct first as [| | | |value| |]; try discriminate;
      destruct value as [| | | | |value|]; try discriminate;
      destruct value as [text| | |]; try discriminate;
      exists text, rest; split; [reflexivity | exact H]
    | intros (text & rest & Hbody & Hclean); subst body; exact Hclean ]).
Qed.

Lemma trimmed_docstring_documented (n : node) :
  Spec.documented n = true -> documented n = true.
Proof.
  unfold Spec.documented. intros H.
  destruct (Ast.iter_child_nodes n) as [|first rest] eqn:Hbody;
    [discriminate|].
  destruct first as [| | | |value| |]; try discriminate.
  destruct value as [| | | | |value|]; try discriminate.
  destruct value as [text| | |]; try discriminate.
  apply andb_true_iff in H as [Hdecl Htrim].
  apply (documented_iff_docstring n Hdecl). exists text, rest.
  split; [exact Hbody|].
  apply cleandoc_nonempty, strip_nonempty, Htrim.
Qed.

Lemma empty_docstring_undocumented (n : node) (rest : list node) :
  Ast.iter_child_nodes n = Expr (Constant (CStr EmptyString)) :: rest ->
  documented n = false.
Proof.
  intros Hbody. unfold documented.
  destruct n; cbn [Ast.iter_child_nodes] in Hbody;
    try (rewrite Hbody; reflexivity); try reflexivity.
Qed.

End Analysis.

(** ** The claims of the specification *)

Section Claims.

(** C1 (not met by the code): a function that is an immediate member of
    a class body should be reported once, as a Method.  For a file with
    only a class holding a documented method and an undocumented method
    [b], the analysis reports [b] as Method [C.b] and, when the walk
    reaches the same node again, a second time as a top-level Function. *)
Theorem method_reported_twice :
  analyze_file "c.py" (Samples.parsed Samples.class_two_methods)
  = Returns
      [("Class", 1, "C"); ("Method", 4, "C.b"); ("Function", 4, "b")]%string.
Proof. reflexivity. Qed.



(** C3 (counterexample): a function whose only statement is a string
    literal made of a line feed and four spaces is empty after trimming,
    yet the analysis counts it as documented and reports nothing. *)
Lemma blank_docstring_counts_as_documented :
  Spec.documented Samples.blank_doc = false
  /\ documented Samples.blank_doc = true
  /\ analyze_file "f.py" (Samples.parsed (Module [Samples.blank_doc]))
     = Returns [].
Proof. repeat split; reflexivity. Qed.

(** C3 (amended): a declaration of any kind is counted as documented if
    and only if the first statement of its body is a standalone string
    literal whose text [inspect.cleandoc] does not clean down to the empty
    string, that is, whose text is non-empty after trimming or has a
    non-empty line after its first line.  So every literal that is
    non-empty after trimming is documented, a literal made only of white
    space is documented exactly when a line after its first one is not
    empty, and the empty literal is not documented.  An undocumented
    function is reported as missing wherever it stands; functions, methods
    and classes are reported by that one test. *)
Theorem documented_iff_cleaned_docstring (n : node) :
  is_declaration n = true ->
  (documented n = true
   <-> exists text rest,
         Ast.iter_child_nodes n = Expr (Constant (CStr text)) :: rest
         /\ PyStr.nonempty (Inspect.cleandoc text) = true)
  /\ (documented n = true
      <-> exists text rest,
            Ast.iter_child_nodes n = Expr (Constant (CStr text)) :: rest
            /\ (PyStr.nonempty (Spec.strip text) = true
                \/ later_line_nonempty text = true))
  /\ (Spec.documented n = true -> documented n = true)
  /\ (forall text rest,
        Ast.iter_child_nodes n = Expr (Constant (CStr text)) :: rest ->
        PyStr.nonempty (Spec.strip text) = false ->
        documented n = later_line_nonempty text)
  /\ (forall rest,
        Ast.iter_child_nodes n = Expr (Constant (CStr EmptyString)) :: rest ->
        documented n = false)
  /\ (forall tree,
        occurs_in tree n -> is_function n = true -> documented n = false ->
        In ("Function"%string, node_lineno n, node_name n)
           (missing_items tree))
  /\ (is_function n = true ->
      check_node n
      = (if documented n then []
         else [("Function"%string, node_lineno n, node_name n)])
      /\ forall class_name,
           check_method class_name n
           = if documented n then []
             else [("Method"%string, node_lineno n,
                    class_name +++ "." +++ node_name n)])
  /\ (forall name lineno body,
        n = ClassDef name lineno body ->
        check_node n
        = (if documented n then [] else [("Class"%string, lineno, name)])
          ++ flat_map (check_method name) body).
Proof.
  intros Hdecl.
  assert (Htext : forall text,
            PyStr.nonempty (Inspect.cleandoc text) = true
            <-> PyStr.nonempty (Spec.strip text) = true
                \/ later_line_nonempty text = true).
  { intros text. rewrite cleandoc_nonempty_iff, orb_true_iff, strip_nonempty.
    reflexivity. }
  split; [apply documented_iff_docstring, Hdecl|].
  split.
  { rewrite (documented_iff_docstring n Hdecl).
    split; intros (text & rest & Hbody & H); exists text, rest;
      (split; [exact Hbody | apply Htext, H]). }
  split; [apply trimmed_docstring_documented|].
  split.
  { intros text rest Hbody Htrim.
    assert (Hblank : PyStr.has_nonspace text = false).
    { destruct (PyStr.has_nonspace text) eqn:E; [|reflexivity].
      apply strip_nonempty in E. congruence. }
    assert (Hdoc : documented n = PyStr.nonempty (Inspect.cleandoc text)).
    { unfold documented.
      destruct n; try discriminate; cbn [Ast.iter_child_nodes] in Hbody;
        subst; reflexivity. }
    rewrite Hdoc, cleandoc_nonempty_iff, Hblank. reflexivity. }
  split; [apply empty_docstring_undocumented|].
  split; [intros tree; apply undocumented_function_reported|].
  split.
  - intros Hfun. split; [apply check_node_function, Hfun|].
    intros class_name. apply check_method_function, Hfun.
  - intros name lineno body ->. unfold documented. cbn [check_node].
    destruct (truthy (Ast.get_docstring (ClassDef name lineno body)));
      reflexivity.
Qed.

(** A function whose body is a literal of white space only, with four
    spaces on its second line. *)
Lemma documented_iff_cleaned_docstring_witness :
  is_declaration Samples.blank_doc = true
  /\ PyStr.nonempty
       (Spec.strip (String PyStr.nl "    ")) = false
  /\ later_line_nonempty (String PyStr.nl "    ") = true
  /\ documented Samples.blank_doc = true.
Proof.
  split; [reflexivity|]. split; [reflexivity|]. split; [reflexivity|].
  pose proof (documented_iff_cleaned_docstring Samples.blank_doc eq_refl)
    as (_ & _ & _ & Hblank & _).
  rewrite (Hblank (String PyStr.nl "    ") [] eq_refl eq_refl). reflexivity.
Defined.

(** C4 (not met by the code): a file with full coverage should still be
    counted in [files_scanned].  Scanning a directory whose only file is
    fully documented opens and analyses the file, yet leaves
    [files_scanned] at 0: the counter is incremented only for files with
    findings. *)
Theorem covered_file_not_counted :
  let r := main Samples.covered_project
                ["docstring_coverage.py"; "proj"]%string in
  opened (final r) = ["proj/a.py"%string]
  /\ files_scanned (final r) = 0
  /\ total_missing (final r) = 0
  /\ exit_code r = 0.
Proof. repeat split; reflexivity. Qed.

(** C5 (not met by the code): on a valid root the exit code should be 0
    exactly when there is no finding.  With a single file that holds a
    null byte, [ast.parse] raises [ValueError], which no handler catches:
    the run has no finding and yet ends with status 1. *)
Theorem null_byte_file_fails_clean_run :
  let argv := ["docstring_coverage.py"; "proj"]%string in
  let r := main Samples.nul_project argv in
  isdir Samples.nul_project (target_dir argv) = true
  /\ findings Samples.nul_project (target_dir argv) = []
  /\ total_missing (final r) = 0
  /\ exit_code r = 1
  /\ traceback r = Some ValueError.
Proof. repeat split; reflexivity. Qed.

(** C6: when the root does not exist or is not a directory the run prints
    one error message, opens no file, prints nothing of a scan and exits
    with code 1. *)
Theorem invalid_root_fails (env : os_env) (argv : list string) :
  isdir env (target_dir argv) = false ->
  main env argv
  = {| final :=
         {| total_missing := 0;
            files_scanned := 0;
            stdout :=
              ["Error: Directory '" +++ target_dir argv
               +++ "' does not exist."];
            opened := [] |};
       exit_code := 1;
       traceback := None |}.
Proof. intros Hdir. unfold main. rewrite Hdir. reflexivity. Qed.

(** A root that does not exist. *)
Lemma invalid_root_fails_witness :
  let argv := ["docstring_coverage.py"; "missing"]%string in
  isdir Samples.empty_world (target_dir argv) = false
  /\ stdout (final (main Samples.empty_world argv))
     = ["Error: Directory 'missing' does not exist."%string]
  /\ exit_code (main Samples.empty_world argv) = 1.
Proof.
  intros argv. split; [reflexivity|].
  rewrite (invalid_root_fails Samples.empty_world argv eq_refl).
  split; reflexivity.
Defined.

(** C7 (not met by the code): no failure on one file should end the
    run.  On a file that holds a null byte [ast.parse] raises [ValueError];
    [analyze_file] catches [SyntaxError] only, so the exception escapes:
    the run stops at that file with a traceback and status 1, prints no
    summary, and the file listed after it is never opened. *)
Theorem uncaught_parser_exception_stops_scan :
  let r := main Samples.crashing_project
                ["docstring_coverage.py"; "proj"]%string in
  analyze_file "proj/nul.py" (Samples.raising ValueError) = Raises ValueError
  /\ opened (final r) = ["proj/a.py"; "proj/nul.py"]%string
  /\ stdout (final r)
     = [scan_header Samples.crashing_project "proj"; "proj/a.py:";
        "  - Line 1: Function 'f' is missing a docstring."; ""]%string
  /\ exit_code r = 1
  /\ traceback r = Some ValueError.
Proof. repeat split; reflexivity. Qed.

(** C8 (counterexample): scanning a directory whose file [a.py] holds an
    undocumented function [f] prints a finding line and a summary line
    that end in the word docstring(s); the lines worded with
    "documentation block" and "documentation items" are not printed. *)
Lemma report_wording_differs :
  let r := main Samples.bare_project
                ["docstring_coverage.py"; "proj"]%string in
  stdout (final r)
  = [scan_header Samples.bare_project "proj"; "proj/a.py:";
     "  - Line 1: Function 'f' is missing a docstring."; "";
     "--- Summary ---"; "Total missing docstrings found: 1"]%string
  /\ ~ In (Spec.item_line ("Function", 1, "f")%string) (stdout (final r))
  /\ ~ In (Spec.summary_line 1) (stdout (final r)).
Proof.
  split; [reflexivity|].
  split; intros H; cbv in H;
    repeat (destruct H as [H|H]; [discriminate H|]); exact H.
Qed.

(** C8 (amended): when the scan ends without an escaped exception, the
    report is the scan header, then for every file with findings a block
    made of the path header [<filepath>:], one line
    ["  - Line <N>: <Kind> '<name>' is missing a docstring."] per finding
    and an empty line, then the line [--- Summary ---] and the summary
    line ["Total missing docstrings found: <count>"]; the summary line is
    the last line whenever there is a finding. *)
Theorem report_layout (env : os_env) (directory : string) :
  traceback (scan_directory env directory) = None ->
  let rs := analyzed env directory in
  let total := Z.of_nat (List.length (findings env directory)) in
  let out := stdout (final (scan_directory env directory)) in
  out = scan_header env directory
        :: flat_map block rs
           ++ ["--- Summary ---"%string; summary_line total]
           ++ (if 0 <? total then []
               else ["No missing docstrings found!"%string])
  /\ (forall path content,
        In (path, content) (candidates env directory) ->
        exists found,
          analyze_file path content = Returns found /\ In (path, found) rs)
  /\ (forall r,
        In r rs -> has_findings r = true ->
        block r = ((fst r +++ ":") :: map item_line (snd r)) ++ [EmptyString])
  /\ (forall r, In r rs -> has_findings r = false -> block r = [])
  /\ (forall kind line name,
        item_line (kind, line, name)
        = "  - Line " +++ PyStr.str line +++ ": " +++ kind +++ " '" +++ name
          +++ "' is missing a docstring.")
  /\ summary_line total
     = "Total missing docstrings found: " +++ PyStr.str total
  /\ (0 < total -> last out EmptyString = summary_line total).
Proof.
  intros Hdone rs total out.
  assert (Hcrash : crash env directory = None).
  { rewrite scan_directory_run in Hdone.
    destruct (crash env directory) as [[path e]|];
      [discriminate Hdone | reflexivity]. }
  assert (Hout : out = scan_header env directory
                       :: flat_map block rs
                          ++ ["--- Summary ---"%string; summary_line total]
                          ++ (if 0 <? total then []
                              else ["No missing docstrings found!"%string])).
  { subst out. rewrite scan_directory_run, Hcrash. reflexivity. }
  split; [exact Hout|].
  split; [apply analyze_all_complete, Hcrash|].
  split; [intros r _ Hr; unfold block; rewrite Hr; reflexivity|].
  split; [intros r _ Hr; unfold block; rewrite Hr; reflexivity|].
  split; [reflexivity|]. split; [reflexivity|].
  intros Hpos. rewrite Hout.
  apply Z.ltb_lt in Hpos. rewrite Hpos, app_nil_r.
  change (scan_header env directory
          :: flat_map block rs
             ++ ["--- Summary ---"%string; summary_line total])
    with ((scan_header env directory :: flat_map block rs)
          ++ ["--- Summary ---"%string; summary_line total]).
  change ["--- Summary ---"%string; summary_line total]
    with (["--- Summary ---"%string] ++ [summary_line total]).
  rewrite app_assoc. apply last_last.
Qed.

(** A project with one undocumented function. *)
Lemma report_layout_witness :
  traceback (scan_directory Samples.bare_project "proj") = None
  /\ stdout (final (scan_directory Samples.bare_project "proj"))
     = [scan_header Samples.bare_project "proj"; "proj/a.py:";
        "  - Line 1: Function 'f' is missing a docstring."; "";
        "--- Summary ---"; "Total missing docstrings found: 1"]%string.
Proof.
  split; [reflexivity|].
  pose proof (report_layout Samples.bare_project "proj" eq_refl)
    as (Hout & _).
  rewrite Hout. reflexivity.
Defined.

(** C9 (counterexample): with a function [g] (line 2) nested in [f]
    (line 1) and followed by [h] (line 4), the findings come out in the
    order of lines 1, 4, 2. *)
Lemma nested_function_breaks_line_order :
  analyze_file "m.py" (Samples.parsed Samples.nested_defs)
  = Returns
      [("Function", 1, "f"); ("Function", 4, "h"); ("Function", 2, "g")]%string
  /\ ascending
       (map item_lineno
            (returned
               (analyze_file "m.py" (Samples.parsed Samples.nested_defs))))
     = false.
Proof. split; reflexivity. Qed.

(** C9 (amended): the findings of a file follow the breadth-first order
    of the walk: the nodes are checked by increasing nesting depth, left
    to right within one depth, and the items of a node (for a class: the
    class, then the methods of its body) stay together. *)
Theorem missing_items_level_order (tree : node) :
  missing_items tree = flat_map check_node (level_order tree).
Proof. rewrite missing_items_walk, walk_level_order. reflexivity. Qed.

(** C10 (counterexample): an undocumented [async def] is reported with
    the kind Function; no AsyncFunction item is produced. *)
Lemma async_function_reported_as_function :
  analyze_file "a.py" (Samples.parsed Samples.async_def)
  = Returns [("Function", 1, "fetch")]%string
  /\ ~ In "AsyncFunction"%string
         (map item_type
              (returned
                 (analyze_file "a.py" (Samples.parsed Samples.async_def)))).
Proof.
  split; [reflexivity|].
  intros H; cbv in H; destruct H as [H|H]; [discriminate H | exact H].
Qed.

(** C10 (amended): every function-like declaration without documentation,
    at any nesting depth and whether asynchronous or not, is reported
    with the kind Function; the only kinds reported, for any tree, are
    Function, Class and Method. *)
Theorem every_function_checked (tree : node) :
  (forall n,
     occurs_in tree n -> is_function n = true -> documented n = false ->
     In ("Function"%string, node_lineno n, node_name n) (missing_items tree))
  /\ (forall it,
        In it (missing_items tree) ->
        item_type it = "Function"%string \/ item_type it = "Class"%string
        \/ item_type it = "Method"%string).
Proof.
  split; [intros n; apply undocumented_function_reported|].
  intros it Hit. rewrite missing_items_walk in Hit.
  apply in_flat_map in Hit as [m [_ Hit]]. eapply check_node_type, Hit.
Qed.

(** The function nested in another one. *)
Lemma every_function_checked_witness :
  let g := FunctionDef "g" 2 [Samples.pass] in
  occurs_in Samples.nested_defs g
  /\ is_function g = true
  /\ documented g = false
  /\ In ("Function"%string, 2, "g"%string)
        (missing_items Samples.nested_defs).
Proof.
  intros g.
  assert (Hocc : occurs_in Samples.nested_defs g).
  { eapply occurs_child with (n := FunctionDef "f" 1 [g]).
    - eapply occurs_child; [apply occurs_root | left; reflexivity].
    - left. reflexivity. }
  split; [exact Hocc|]. split; [reflexivity|]. split; [reflexivity|].
  apply (proj1 (every_function_checked Samples.nested_defs) g Hocc
               eq_refl eq_refl).
Defined.

End Claims.

(** * Further properties of the analysis and of the scan *)

(** ** The findings of one file *)

Section MoreAnalysis.
Import Ast.

Lemma preorder_children (n : node) :
  preorder n = n :: flat_map preorder (iter_child_nodes n).
Proof.
  destruct n; cbn [preorder iter_child_nodes flat_map]; try reflexivity.
  rewrite app_nil_r. reflexivity.
Qed.

Lemma children_then_preorder (l : list node) :
  Permutation (l ++ flat_map preorder (flat_map iter_child_nodes l))
              (flat_map preorder l).
Proof.
  induction l as [|x l IH]; [constructor|].
  cbn [flat_map app]. rewrite flat_map_app, preorder_children.
  cbn [app]. apply perm_skip.
  rewrite <- IH. apply Permutation_app_swap_app.
Qed.

Lemma levels_preorder (h : nat) :
  forall l,
    Forall (fun n => (height n <= h)%nat) l ->
    Permutation (flat_map (fun d => flat_map (level d) l) (seq 0 h))
                (flat_map preorder l).
Proof.
  induction h as [|h IH]; intros l Hh.
  - destruct l as [|x l]; [constructor|].
    inversion Hh as [|? ? Hx _]; subst.
    rewrite height_children in Hx. lia.
  - change (seq 0 (S h)) with (0%nat :: seq 1 h).
    rewrite flat_map_step. cbv beta. rewrite level_zero.
    rewrite <- seq_shift, flat_map_of_map.
    rewrite <- children_then_preorder. apply Permutation_app_head.
    rewrite <- (IH _ (height_bound_children _ _ Hh)).
    erewrite flat_map_ext; [reflexivity|].
    intros d. apply level_succ.
Qed.

(** The walk yields the nodes of the tree, each one once. *)
Lemma walk_preorder (tree : node) : Permutation (walk tree) (preorder tree).
Proof.
  rewrite walk_level_order. unfold level_order.
  rewrite <- (app_nil_r (preorder tree)).
  change (preorder tree ++ []) with (flat_map preorder [tree]).
  rewrite <- (levels_preorder (height tree) [tree]).
  - erewrite flat_map_ext; [reflexivity|].
    intros d. cbn [flat_map]. rewrite app_nil_r. reflexivity.
  - constructor; [apply Nat.le_refl | constructor].
Qed.

Lemma missing_items_preorder (tree : node) :
  Permutation (missing_items tree) (flat_map check_node (preorder tree)).
Proof.
  rewrite missing_items_walk. apply Permutation_flat_map, walk_preorder.
Qed.

(** The items found below a list of statements. *)
Lemma module_items (body : list node) :
  Permutation (missing_items (Module body))
              (flat_map check_node (flat_map preorder body)).
Proof. rewrite missing_items_preorder. reflexivity. Qed.

Lemma flat_map_nil {A B : Type} (f : A -> list B) (l : list A) :
  (forall x, In x l -> f x = []) -> flat_map f l = [].
Proof.
  induction l as [|x l IH]; intros H; [reflexivity|].
  cbn [flat_map]. rewrite (H x (or_introl eq_refl)), IH; [reflexivity|].
  intros y Hy. apply H. right. exact Hy.
Qed.

(** X1: an item is reported for a file exactly when it stands for an
    undocumented function that occurs in the tree (kind Function), for an
    undocumented class that occurs in it (kind Class), or for an
    undocumented function that is an immediate member of the body of a
    class occurring in it (kind Method, named after that class alone). *)
Theorem finding_iff_undocumented (tree : node) (it : item) :
  In it (missing_items tree)
  <-> (exists n,
         occurs_in tree n /\ is_function n = true /\ documented n = false
         /\ it = ("Function"%string, node_lineno n, node_name n))
      \/ (exists name lineno body,
            occurs_in tree (ClassDef name lineno body)
            /\ documented (ClassDef name lineno body) = false
            /\ it = ("Class"%string, lineno, name))
      \/ (exists class_name lineno body m,
            occurs_in tree (ClassDef class_name lineno body)
            /\ In m body /\ is_function m = true /\ documented m = false
            /\ it = ("Method"%string, node_lineno m,
                     class_name +++ "." +++ node_name m)).
Proof.
  rewrite missing_items_walk, in_flat_map. split.
  - intros [n [Hwalk Hit]]. apply walk_occurs in Hwalk.
    destruct n as [|name lineno body|name lineno body|name lineno body| | |];
      try (destruct Hit; fail).
    + left. exists (FunctionDef name lineno body).
      rewrite check_node_function in Hit by reflexivity.
      destruct (documented (FunctionDef name lineno body)); pick_item Hit.
      repeat split; assumption || reflexivity.
    + left. exists (AsyncFunctionDef name lineno body).
      rewrite check_node_function in Hit by reflexivity.
      destruct (documented (AsyncFunctionDef name lineno body)); pick_item Hit.
      repeat split; assumption || reflexivity.
    + right. cbn [check_node] in Hit. apply in_app_or in Hit as [Hit|Hit].
      * left. exists name, lineno, body.
        fold (documented (ClassDef name lineno body)) in Hit.
        destruct (documented (ClassDef name lineno body)); cbn [negb] in Hit;
          pick_item Hit. repeat split; assumption || reflexivity.
      * right. apply in_flat_map in Hit as [m [Hm Hit]].
        exists name, lineno, body, m.
        assert (Hfun : is_function m = true).
        { destruct m; try (destruct Hit; fail); reflexivity. }
        rewrite (check_method_function _ _ Hfun) in Hit.
        destruct (documented m); pick_item Hit.
        repeat split; assumption || reflexivity.
  - intros [(n & Hocc & Hfun & Hdoc & ->)
           |[(name & lineno & body & Hocc & Hdoc & ->)
            |(class_name & lineno & body & m & Hocc & Hm & Hfun & Hdoc & ->)]].
    + exists n. split; [apply occurs_in_walk, Hocc|].
      rewrite (check_node_function _ Hfun), Hdoc. left. reflexivity.
    + exists (ClassDef name lineno body).
      split; [apply occurs_in_walk, Hocc|].
      cbn [check_node]. apply in_or_app. left.
      fold (documented (ClassDef name lineno body)). rewrite Hdoc.
      left. reflexivity.
    + exists (ClassDef class_name lineno body).
      split; [apply occurs_in_walk, Hocc|].
      cbn [check_node]. apply in_or_app. right.
      apply in_flat_map. exists m. split; [exact Hm|].
      rewrite (check_method_function _ _ Hfun), Hdoc. left. reflexivity.
Qed.

Lemma clean_iff_documented (tree : node) :
  missing_items tree = []
  <-> forall n,
        occurs_in tree n -> is_declaration n = true -> documented n = true.
Proof.
  split.
  - intros Hnone n Hocc Hdecl.
    destruct (documented n) eqn:Hdoc; [reflexivity|].
    assert (Hin : exists it, In it (missing_items tree)).
    { destruct n as [|name lineno body|name lineno body|name lineno body| | |];
        try discriminate.
      - eexists. apply undocumented_function_reported; eassumption || reflexivity.
      - eexists. apply undocumented_function_reported; eassumption || reflexivity.
      - exists ("Class"%string, lineno, name).
        rewrite missing_items_walk. apply in_flat_map.
        exists (ClassDef name lineno body).
        split; [apply occurs_in_walk, Hocc|].
        cbn [check_node]. apply in_or_app. left.
        fold (documented (ClassDef name lineno body)). rewrite Hdoc.
        left. reflexivity. }
    destruct Hin as [it Hin]. rewrite Hnone in Hin. destruct Hin.
  - intros Hall. rewrite missing_items_walk. apply flat_map_nil.
    intros n Hwalk. apply walk_occurs in Hwalk.
    destruct n as [|name lineno body|name lineno body|name lineno body| | |];
      try reflexivity.
    + rewrite check_node_function, (Hall _ Hwalk) by reflexivity. reflexivity.
    + rewrite check_node_function, (Hall _ Hwalk) by reflexivity. reflexivity.
    + cbn [check_node]. fold (documented (ClassDef name lineno body)).
      rewrite (Hall _ Hwalk eq_refl). cbn [negb app].
      apply flat_map_nil. intros m Hm.
      destruct (is_function m) eqn:Hfun.
      * rewrite (check_method_function _ _ Hfun).
        rewrite (Hall m); [reflexivity | | destruct m; try discriminate; reflexivity].
        eapply occurs_child; [exact Hwalk | exact Hm].
      * destruct m; try discriminate; reflexivity.
Qed.

(** X2: a file has no finding exactly when every function and every class
    occurring in it, at any depth, is documented. *)
Theorem no_finding_iff_all_documented (tree : node) :
  missing_items tree = []
  <-> forall n,
        occurs_in tree n -> is_declaration n = true -> documented n = true.
Proof. apply clean_iff_documented. Qed.

(** X3: up to order, the findings of a file are those of its top-level
    statements taken apart: the items found for two runs of statements put
    one after the other are the items found for each run. *)
Theorem findings_of_concatenated_bodies (a b : list node) :
  Permutation (missing_items (Module (a ++ b)))
              (missing_items (Module a) ++ missing_items (Module b)).
Proof.
  rewrite !module_items, !flat_map_app. reflexivity.
Qed.

(** X4: a top-level statement that is not a definition (an [if], a [try],
    a loop, ...) is transparent: the declarations it holds are reported, up
    to order, as if they stood in its place. *)
Theorem compound_statement_transparent (before children after : list node) :
  Permutation (missing_items (Module (before ++ Other children :: after)))
              (missing_items (Module (before ++ children ++ after))).
Proof.
  rewrite !module_items, !flat_map_app. cbn [flat_map preorder app].
  rewrite !flat_map_app. reflexivity.
Qed.

End MoreAnalysis.

(** ** The files a scan opens *)

Section MoreScan.
Import PyStr.










Lemma endswith_append (suffix a b : string) :
  endswith suffix b = true -> endswith suffix (a +++ b) = true.
Proof.
  intros H. induction a as [|c a IH]; [exact H|].
  change (String c a +++ b) with (String c (a +++ b)).
  cbn [endswith]. rewrite IH. apply orb_true_r.
Qed.

Lemma endswith_join (suffix root file : string) :
  endswith suffix file = true ->
  endswith suffix (OsPath.join root file) = true.
Proof.
  intros H. unfold OsPath.join.
  destruct (startswith (String OsPath.sep EmptyString) file); [exact H|].
  destruct (String.eqb root EmptyString
            || endswith (String OsPath.sep EmptyString) root);
    repeat apply endswith_append; exact H.
Qed.

Lemma candidate_iff (env : os_env) (directory path : string)
    (content : file_content) :
  In (path, content) (candidates env directory)
  <-> exists root dirs files file,
        In (root, dirs, files) (os_walk_top env directory)
        /\ skipped root = false
        /\ In (file, content) files
        /\ endswith ".py" file = true
        /\ path = OsPath.join root file.
Proof.
  unfold candidates. rewrite in_flat_map. split.
  - intros [[[root dirs] files] [Hentry Hin]].
    unfold entry_candidates in Hin.
    destruct (skipped root) eqn:Hskip; [destruct Hin|].
    apply in_flat_map in Hin as [[file c] [Hfile Hin]].
    unfold file_candidate in Hin. cbn [fst snd] in Hin.
    destruct (endswith ".py" file) eqn:Hpy; [|destruct Hin].
    destruct Hin as [Heq|[]]. inversion Heq; subst.
    exists root, dirs, files, file. repeat split; assumption.
  - intros (root & dirs & files & file & Hentry & Hskip & Hfile & Hpy & ->).
    exists (root, dirs, files). split; [exact Hentry|].
    unfold entry_candidates. rewrite Hskip.
    apply in_flat_map. exists (file, content). split; [exact Hfile|].
    unfold file_candidate. cbn [fst snd]. rewrite Hpy. left. reflexivity.
Qed.

Lemma traceback_iff_crash (env : os_env) (directory : string) :
  traceback (scan_directory env directory) = None
  <-> crash env directory = None.
Proof.
  rewrite scan_directory_run.
  destruct (crash env directory) as [[path e]|]; split;
    intros H; reflexivity || discriminate H.
Qed.

(** Every opened file is a candidate. *)
Lemma opened_candidate (env : os_env) (directory path : string) :
  In path (opened (final (scan_directory env directory))) ->
  exists content, In (path, content) (candidates env directory).
Proof.
  rewrite scan_directory_run.
  assert (Hrs : In path (map fst (analyzed env directory)) ->
                exists content, In (path, content) (candidates env directory)).
  { intros H. apply in_map_iff in H as [r [<- Hr]].
    apply analyze_all_results in Hr as [content [Hc _]].
    exists content. exact Hc. }
  destruct (crash env directory) as [[p e]|] eqn:Hcrash;
    cbn [final opened]; [|exact Hrs].
  intros H. apply in_app_or in H as [H|[<-|[]]]; [apply Hrs, H|].
  apply analyze_all_crash in Hcrash as [content [Hc _]].
  exists content. exact Hc.
Qed.

Lemma main_opened (env : os_env) (argv : list string) (p : string) :
  In p (opened (final (main env argv))) ->
  exists content, In (p, content) (candidates env (target_dir argv)).
Proof.
  unfold main. destruct (isdir env (target_dir argv)); cbn [negb].
  - apply opened_candidate.
  - intros [].
Qed.

(** X5: a run opens nothing but files whose name ends in [.py], listed in
    a walked directory whose path has no segment starting with a dot and
    does not contain [__pycache__]. *)
Theorem opens_only_python_files (env : os_env) (argv : list string)
    (p : string) :
  In p (opened (final (main env argv))) ->
  endswith ".py" p = true
  /\ exists root dirs files file content,
       In (root, dirs, files) (os_walk_top env (target_dir argv))
       /\ hidden root = false
       /\ contains "__pycache__" root = false
       /\ In (file, content) files
       /\ p = OsPath.join root file.
Proof.
  intros H. apply main_opened in H as [content H].
  apply candidate_iff in H
    as (root & dirs & files & file & Hentry & Hskip & Hfile & Hpy & ->).
  split; [apply endswith_join, Hpy|].
  apply orb_false_iff in Hskip as [Hhidden Hcache].
  exists root, dirs, files, file, content. repeat split; assumption.
Qed.

Lemma opens_only_python_files_witness :
  let r := main MoreSamples.cluttered_project
                ["docstring_coverage.py"; "proj"]%string in
  In "proj/pkg/b.py"%string (opened (final r))
  /\ endswith ".py" "proj/pkg/b.py" = true.
Proof.
  intros r.
  assert (Hin : In "proj/pkg/b.py"%string (opened (final r))).
  { right. right. left. reflexivity. }
  split; [exact Hin|].
  apply (opens_only_python_files MoreSamples.cluttered_project
           ["docstring_coverage.py"; "proj"]%string _ Hin).
Defined.

(** X6: when the scan ends without an escaped exception, every file
    whose name ends in [.py] and that is listed in a walked directory the
    scan does not pass over has been opened, whatever else its name is; a
    file name starting with a dot is no exception. *)
Theorem python_file_of_visible_directory_opened (env : os_env)
    (directory root file : string) (dirs : list string)
    (files : list (string * file_content)) (content : file_content) :
  traceback (scan_directory env directory) = None ->
  In (root, dirs, files) (os_walk_top env directory) ->
  skipped root = false ->
  In (file, content) files ->
  endswith ".py" file = true ->
  In (OsPath.join root file) (opened (final (scan_directory env directory))).
Proof.
  intros Hdone Hentry Hskip Hfile Hpy.
  apply traceback_iff_crash in Hdone.
  assert (Hcand : In (OsPath.join root file, content)
                     (candidates env directory)).
  { apply candidate_iff. exists root, dirs, files, file.
    repeat split; assumption. }
  destruct (analyze_all_complete _ Hdone _ _ Hcand) as [found [_ Hin]].
  rewrite scan_directory_run. unfold crash in Hdone.
  fold (crash env directory) in Hdone. rewrite Hdone. cbn [final opened].
  apply in_map_iff. exists (OsPath.join root file, found).
  split; [reflexivity | exact Hin].
Qed.

Lemma python_file_of_visible_directory_opened_witness :
  traceback (scan_directory MoreSamples.cluttered_project "proj") = None
  /\ In "proj/.hidden.py"%string
        (opened (final (scan_directory MoreSamples.cluttered_project "proj"))).
Proof.
  split; [reflexivity|].
  apply (python_file_of_visible_directory_opened
           MoreSamples.cluttered_project "proj" "proj" ".hidden.py"
           [".git"; "pkg"]%string
           [("a.py"%string, Samples.parsed Samples.bare_def);
            (".hidden.py"%string, Samples.parsed Samples.bare_def)]
           (Samples.parsed Samples.bare_def)).
  - reflexivity.
  - left. reflexivity.
  - reflexivity.
  - right. left. reflexivity.
  - reflexivity.
Defined.





Lemma reported_files_le_findings (rs : list (string * list item)) :
  (List.length (filter has_findings rs)
   <= List.length (flat_map snd rs))%nat.
Proof.
  induction rs as [|[p found] rs IH]; [apply Nat.le_refl|].
  cbn [filter flat_map]. rewrite length_app. unfold has_findings at 1.
  cbn [snd]. destruct found; cbn [List.length]; lia.
Qed.

Lemma counters_zero_together (rs : list (string * list item)) :
  List.length (filter has_findings rs) = 0%nat
  <-> List.length (flat_map snd rs) = 0%nat.
Proof.
  pose proof (reported_files_le_findings rs) as Hle.
  split; [|lia]. clear Hle.
  induction rs as [|[p found] rs IH]; [reflexivity|].
  cbn [filter flat_map]. unfold has_findings at 1. cbn [snd].
  destruct found; [exact IH | discriminate].
Qed.

(** X9: at the end of every run the counters satisfy
    [0 <= files_scanned <= total_missing], they are both 0 or both
    positive, and the exit code is 0 or 1. *)
Theorem counters_invariant (env : os_env) (argv : list string) :
  let r := main env argv in
  0 <= files_scanned (final r) <= total_missing (final r)
  /\ (files_scanned (final r) = 0 <-> total_missing (final r) = 0)
  /\ (exit_code r = 0 \/ exit_code r = 1).
Proof.
  intros r. subst r. unfold main.
  destruct (isdir env (target_dir argv)); cbn [negb].
  - rewrite scan_directory_run. unfold findings.
    pose proof (reported_files_le_findings (analyzed env (target_dir argv)))
      as Hle.
    pose proof (counters_zero_together (analyzed env (target_dir argv)))
      as Hzero.
    destruct (crash env (target_dir argv)) as [[path e]|];
      cbn [final exit_code total_missing files_scanned].
    + split; [lia|]. split; [lia | right; reflexivity].
    + split; [lia|]. split; [lia|].
      destruct (0 <? _); [right | left]; reflexivity.
  - cbn. split; [lia|]. split; [split; reflexivity | right; reflexivity].
Qed.

Lemma blocks_end (rs : list (string * list item)) :
  flat_map block rs = []
  \/ exists lines, flat_map block rs = lines ++ [EmptyString].
Proof.
  induction rs as [|r rs IH]; [left; reflexivity|].
  cbn [flat_map]. destruct IH as [->|[lines ->]].
  - rewrite app_nil_r. unfold block.
    destruct (has_findings r); [right | left; reflexivity].
    eexists. reflexivity.
  - right. exists (block r ++ lines). apply app_assoc.
Qed.

Lemma last_after_header (header : string) (tail : list string) (x : string) :
  last (header :: tail ++ [x]) EmptyString = x.
Proof.
  change (header :: tail ++ [x]) with ((header :: tail) ++ [x]).
  apply last_last.
Qed.

(** X10: the last line a run prints is [No missing docstrings found!]
    exactly when the exit code is 0.  Otherwise the exit code is 1 and,
    unless an exception escaped, the run printed the error message alone
    (invalid root) or ends with the summary line of a positive count. *)
Theorem success_line_iff_exit_zero (env : os_env) (argv : list string) :
  let r := main env argv in
  (last (stdout (final r)) EmptyString = success_line <-> exit_code r = 0)
  /\ (exit_code r <> 0 ->
      exit_code r = 1
      /\ (traceback r = None ->
          (isdir env (target_dir argv) = false
           /\ stdout (final r) = [error_line (target_dir argv)])
          \/ (isdir env (target_dir argv) = true
              /\ 0 < total_missing (final r)
              /\ last (stdout (final r)) EmptyString
                 = summary_line (total_missing (final r))))).
Proof.
  intros r. subst r. unfold main.
  destruct (isdir env (target_dir argv)); cbn [negb].
  - rewrite scan_directory_run.
    set (total := Z.of_nat (List.length (findings env (target_dir argv)))).
    set (blocks := flat_map block (analyzed env (target_dir argv))).
    destruct (crash env (target_dir argv)) as [[path e]|];
      cbn [final exit_code stdout traceback total_missing].
    + split.
      * split; [|discriminate]. intros H. exfalso.
        destruct (blocks_end (analyzed env (target_dir argv)))
          as [Hnone|[lines Hlines]]; fold blocks in Hnone || fold blocks in Hlines.
        -- rewrite Hnone in H. cbn [last] in H.
           unfold scan_header, success_line in H. cbn [String.append] in H.
           discriminate H.
        -- rewrite Hlines, last_after_header in H. discriminate H.
      * intros _. split; [reflexivity | discriminate].
    + destruct (0 <? total) eqn:Hpos.
      * rewrite app_nil_r.
        assert (Hlast : last (scan_header env (target_dir argv)
                              :: blocks
                                 ++ ["--- Summary ---"%string;
                                     summary_line total]) EmptyString
                        = summary_line total).
        { pose proof (last_after_header (scan_header env (target_dir argv))
                        (blocks ++ ["--- Summary ---"%string])
                        (summary_line total)) as H.
          rewrite <- app_assoc in H. exact H. }
        rewrite Hlast. split.
        -- split; intros H; discriminate H.
        -- intros _. split; [reflexivity|]. intros _. right.
           apply Z.ltb_lt in Hpos. repeat split; assumption || reflexivity.
      * assert (Hlast : last (scan_header env (target_dir argv)
                              :: blocks
                                 ++ ["--- Summary ---"%string;
                                     summary_line total]
                                 ++ ["No missing docstrings found!"%string])
                             EmptyString
                        = success_line).
        { pose proof (last_after_header (scan_header env (target_dir argv))
                        (blocks ++ ["--- Summary ---"%string;
                                    summary_line total])
                        success_line) as H.
          rewrite <- app_assoc in H. exact H. }
        rewrite Hlast. split; [split; reflexivity|].
        intros H. exfalso. apply H. reflexivity.
  - cbn [final exit_code stdout print initial_state app last traceback].
    split; [split; intros H; discriminate H|].
    intros _. split; [reflexivity|]. intros _. left.
    split; reflexivity.
Qed.





(** X12: on a valid root [total_missing] is the number of items found in
    the files analysed; exit code 0 implies no finding and no escaped
    exception; any finding gives exit code 1; and when no exception
    escapes, the exit code is 0 exactly when there is no finding. *)
Theorem exit_code_of_completed_run (env : os_env) (argv : list string) :
  isdir env (target_dir argv) = true ->
  let r := main env argv in
  total_missing (final r)
  = Z.of_nat (List.length (findings env (target_dir argv)))
  /\ (exit_code r = 0 -> total_missing (final r) = 0 /\ traceback r = None)
  /\ (0 < total_missing (final r) -> exit_code r = 1)
  /\ (traceback r = None ->
      (exit_code r = 0 <-> total_missing (final r) = 0)).
Proof.
  intros Hdir r. subst r. unfold main. rewrite Hdir. cbn [negb].
  rewrite scan_directory_run.
  set (total := Z.of_nat (List.length (findings env (target_dir argv)))).
  destruct (crash env (target_dir argv)) as [[path e]|];
    cbn [final exit_code total_missing traceback].
  - split; [reflexivity|]. split; [discriminate|].
    split; [reflexivity | discriminate].
  - split; [reflexivity|].
    destruct (0 <? total) eqn:E.
    + apply Z.ltb_lt in E. split; [discriminate|].
      split; [reflexivity|]. intros _. split; intros H; lia.
    + apply Z.ltb_ge in E. split; [intros _; split; [lia | reflexivity]|].
      split; [lia|]. intros _. split; [lia | reflexivity].
Qed.

Lemma exit_code_of_completed_run_witness :
  let env := Samples.bare_project in
  let argv := ["docstring_coverage.py"; "proj"]%string in
  isdir env (target_dir argv) = true
  /\ total_missing (final (main env argv)) = 1
  /\ exit_code (main env argv) = 1.
Proof.
  intros env argv. split; [reflexivity|].
  pose proof (exit_code_of_completed_run env argv eq_refl)
    as (Htotal & _ & Hfail & _).
  split; [exact Htotal | apply Hfail; rewrite Htotal; reflexivity].
Defined.




End MoreScan.
